(** * install-subnet-chain: a shallow embedding of
      avalancheup-aws/src/install_subnet_chain/mod.rs

    [execute] is modelled as a program in a small writer/state/error monad:
    every effect on an external service (ledger RPC, S3, SSM, STS, the
    terminal prompt, sleeps) is logged as a timestamped event, the clock
    advances by the latency of each call, and every `?`, `unwrap()` or
    `expect()` that fails ends the run with an error.  The external services
    are an environment record of oracles. *)

From Stdlib Require Import String Ascii List Bool NArith Lia.
Import ListNotations.
Open Scope string_scope.
Open Scope N_scope.

(* ------------------------------------------------------------------ *)
(** ** Paths and S3 keys *)

Fixpoint last_char (s : string) : option ascii :=
  match s with
  | EmptyString => None
  | String c EmptyString => Some c
  | String _ r => last_char r
  end.

(** aws_manager::s3::append_slash: adds a trailing '/' unless the key
    already ends with one. *)
Definition append_slash (k : string) : string :=
  match last_char k with
  | Some c => if Ascii.eqb c "/"%char then k else k ++ "/"
  | None => k ++ "/"
  end.

(** Splits a string on every occurrence of [c] (as Rust's [str::split]). *)
Fixpoint split_on (c : ascii) (s : string) : list string :=
  match s with
  | EmptyString => [EmptyString]
  | String d r =>
      let parts := split_on c r in
      if Ascii.eqb d c then EmptyString :: parts
      else match parts with
           | p :: ps => String d p :: ps
           | [] => [String d EmptyString]
           end
  end.

(** std::path::Path::file_name: the last normal component; empty and "."
    components are dropped by Path::components, and a last ".." has no
    file name. *)
Definition file_name (p : string) : option string :=
  let comps := filter (fun c => negb (String.eqb c "") && negb (String.eqb c "."))
                      (split_on "/"%char p) in
  match rev comps with
  | [] => None
  | c :: _ => if String.eqb c ".." then None else Some c
  end.

(** std::path::Path::file_stem on a file name: the part before the last
    '.', unless that part is empty (".bashrc") or there is no '.'. *)
Definition stem_of_name (name : string) : string :=
  let parts := split_on "."%char name in
  match parts with
  | [] | [_] => name
  | _ => let before := String.concat "." (removelast parts) in
         if String.eqb before "" then name else before
  end.

Definition file_stem (p : string) : option string :=
  option_map stem_of_name (file_name p).

(** The S3 key of a config file (lines 431-438, 498-505, 596-603, 724-731):
    format!("{}{}", s3::append_slash(prefix), file_stem(path)). *)
Definition config_s3_key (prefix path : string) : option string :=
  option_map (fun stem => append_slash prefix ++ stem) (file_stem path).

(** The S3 key of the VM binary (lines 461-465). *)
Definition vm_binary_s3_key (prefix vm_id : string) : string :=
  append_slash prefix ++ vm_id.

(* ------------------------------------------------------------------ *)
(** ** Flags *)

(** [node_ids_to_instance_ids] is a HashMap<String, String>; it is kept as
    the list of its entries in iteration order. *)
Record Flags := mkFlags {
  log_level : string;
  skip_prompt : bool;
  region : string;
  s3_bucket : string;
  s3_key_prefix : string;
  ssm_doc : string;
  chain_rpc_url : string;
  key : string;
  staking_period_in_days : N;
  staking_amount_in_avax : N;
  subnet_config_local_path : string;
  subnet_config_remote_dir : string;
  vm_binary_local_path : string;
  vm_binary_remote_dir : string;
  vm_id : string;
  chain_name : string;
  chain_genesis_path : string;
  chain_config_local_path : string;
  chain_config_remote_dir : string;
  avalanchego_config_remote_path : string;
  node_ids_to_instance_ids : list (string * string)
}.

Definition is_empty (s : string) : bool := String.eqb s "".

(** Rendering of the install-subnet remote command (lines 587-613). *)
Definition install_subnet_subcmd (opts : Flags) (vm_binary_key vm_id subnet_id : string)
  : string :=
  "install-subnet --log-level info --region " ++ region opts
  ++ " --s3-bucket " ++ s3_bucket opts
  ++ " --vm-binary-s3-key " ++ vm_binary_key
  ++ " --vm-binary-local-path " ++ (append_slash (vm_binary_remote_dir opts) ++ vm_id)
  ++ " --subnet-id-to-track " ++ subnet_id
  ++ " --avalanchego-config-path " ++ avalanchego_config_remote_path opts.

Definition install_subnet_args (opts : Flags) (vm_binary_key vm_id subnet_id : string)
  : option string :=
  let subcmd := install_subnet_subcmd opts vm_binary_key vm_id subnet_id in
  if negb (is_empty (subnet_config_local_path opts)) then
    match config_s3_key (s3_key_prefix opts) (subnet_config_local_path opts) with
    | Some k =>
        Some (subcmd ++ " --subnet-config-s3-key " ++ k
              ++ " --subnet-config-local-path "
              ++ (append_slash (subnet_config_remote_dir opts) ++ subnet_id ++ ".json"))
    | None => None
    end
  else Some subcmd.

(** Rendering of the install-chain remote command (lines 735-740). *)
Definition install_chain_args (opts : Flags) (chain_config_key blockchain_id : string)
  : string :=
  "install-chain --log-level info --region " ++ region opts
  ++ " --s3-bucket " ++ s3_bucket opts
  ++ " --chain-config-s3-key " ++ chain_config_key
  ++ " --chain-config-local-path "
  ++ (append_slash (chain_config_remote_dir opts) ++ blockchain_id ++ "/config.json").

(* ------------------------------------------------------------------ *)
(** ** Stages, events and the environment *)

(** The stages of the pipeline, in program order.  [Lookups] is the
    read-only region of lines 320-406 (network id, wallet, balance, AWS
    identity, confirmation prompt). *)
Inductive stage :=
| Preflight | Lookups | StageArtifacts | RegisterPrimaryValidators
| CreateSubnet | DispatchInstallCommand | PollInstallCommand
| RegisterSubnetValidators | CreateChain
| DispatchChainConfigCommand | PollChainConfigCommand | Done.

Inductive invocation_status :=
| Success | Failed | TimedOut | Cancelled | InProgress.

Definition invocation_status_eqb (a b : invocation_status) : bool :=
  match a, b with
  | Success, Success | Failed, Failed | TimedOut, TimedOut
  | Cancelled, Cancelled | InProgress, InProgress => true
  | _, _ => false
  end.

(** Effects of [execute] on the outside world.  [EvStage] is a ghost marker
    for the start of a stage (the code prints a "STEP:" banner there). *)
Inductive event :=
| EvStage (s : stage)
| EvGetNetworkId (url : string)
| EvBuildWallet (url : string)
| EvGetBalance
| EvLoadAwsConfig (region : string)
| EvGetIdentity
| EvPrompt
| EvPutObject (local bucket s3_key : string)
| EvAddValidator (node : string) (stake offset days : N) (check_acceptance : bool)
| EvCreateSubnet (dry_mode check_acceptance : bool)
| EvSendCommand (doc : string) (instances : list string) (args : string)
| EvPollCommand (command_id instance : string) (timeout interval : N)
| EvAddSubnetValidator (node subnet : string) (offset days : N) (check_acceptance : bool)
| EvCreateChain (subnet genesis vm name : string) (dry_mode check_acceptance : bool)
| EvSleep (secs : N)
| EvReport (subnet blockchain : string).

Record entry := mkEntry { time : N; ev : event }.

(** External collaborators: the ledger wallet, the S3/SSM/STS clients, the
    file system and the terminal.  [None] or [false] is an error result. *)
Record Env := mkEnv {
  path_exists : string -> bool;
  read_file : string -> option string;
  vm_name_to_id : string -> option string;
  id_from_str : string -> option string;
  info_get_network_id : option N;
  key_from_hex : string -> bool;
  wallet_build : bool;
  p_balance : option N;
  to_hrp_address : N -> option string;
  aws_load_config : bool;
  sts_get_identity : bool;
  select_interact : option N;
  s3_put_object : string -> string -> string -> bool;
  node_id_from_str : string -> bool;
  p_add_validator : string -> bool;
  p_create_subnet : bool -> option string;
  ssm_send_command : list string -> string -> option string;
  (** the status an SSM invocation settles in within the poll timeout;
      [None] for an API error or no final status in time *)
  ssm_poll_command : string -> string -> option invocation_status;
  p_add_subnet_validator : string -> string -> bool;
  p_create_chain : bool -> option string;
  latency : event -> N
}.

Inductive error :=
| InvalidInput (msg : string)
| Other (msg : string)
| Panic (msg : string).

Inductive res (A : Type) :=
| Ok (a : A)
| Err (at_stage : stage) (e : error).
Arguments Ok {A} a.
Arguments Err {A} at_stage e.

Record St := mkSt { clock : N; cur : stage }.

(** A computation returns the events it performed, the final state and its
    result. *)
Definition M (A : Type) := St -> list entry * St * res A.

Definition ret {A} (a : A) : M A := fun s => ([], s, Ok a).

(** Continuation of a bind once the first computation has run. *)
Definition bind_cont {A B} (f : A -> M B) (p : list entry * St * res A)
  : list entry * St * res B :=
  match p with
  | (w1, s1, Ok a) => let '(w2, s2, r) := f a s1 in ((w1 ++ w2)%list, s2, r)
  | (w1, s1, Err k e) => (w1, s1, Err k e)
  end.

Definition bind {A B} (m : M A) (f : A -> M B) : M B := fun s => bind_cont f (m s).

Notation "x <- m ;; k" := (bind m (fun x => k))
  (at level 61, m at next level, right associativity).
Notation "m ;;; k" := (bind m (fun _ : unit => k))
  (at level 61, right associativity).

Definition throw {A} (e : error) : M A := fun s => ([], s, Err (cur s) e).

Definition day : N := 86400.

Section Program.
Variable env : Env.

Definition duration (e : event) : N :=
  match e with
  | EvSleep n => n
  | EvStage _ => 0
  | _ => latency env e
  end.

Definition emit (e : event) : M unit :=
  fun s => ([mkEntry (clock s) e], mkSt (clock s + duration e) (cur s), Ok tt).

Definition enter (k : stage) : M unit :=
  fun s => ([mkEntry (clock s) (EvStage k)], mkSt (clock s) k, Ok tt).

(** `.unwrap()` / `.expect(msg)`: a panic on the error case. *)
Definition unwrap {A} (o : option A) (msg : string) : M A :=
  match o with Some a => ret a | None => throw (Panic msg) end.

(** An effect followed by `.unwrap()` of its result. *)
Definition call {A} (e : event) (o : option A) (msg : string) : M A :=
  emit e ;;; unwrap o msg.

Definition check (e : event) (ok : bool) (msg : string) : M unit :=
  emit e ;;; (if ok then ret tt else throw (Panic msg)).

Fixpoint for_each {A} (xs : list A) (f : A -> M unit) : M unit :=
  match xs with
  | [] => ret tt
  | x :: r => f x ;;; for_each r f
  end.

(** Modelled from the spec: avalanche-types' validate_period_in_days, which
    is not under src/.  "Validation period start is a fixed 60-day-future
    offset from issuance; end = start + requested days": the builder reads
    the clock [now] when it is called. *)
Definition validate_period_in_days (now offset days : N) : N * N :=
  let start := now + offset * day in (start, start + days * day).

(** Rust's `-` on u64 as built with overflow checks (the debug profile):
    an underflow panics.  A release build without overflow checks would wrap
    instead; the claims below only use this where no underflow occurs, or
    for its panic in the model. *)
Definition u64_sub (a b : N) : M N :=
  if b <=? a then ret (a - b) else throw (Panic "attempt to subtract with overflow").

Definition vm_binary_missing_msg (p : string) := "vm binary file '" ++ p ++ "' not found".
Definition subnet_flags_msg :=
  "subnet_config_local_path not empty but subnet_config_remote_dir empty".
Definition chain_flags_msg :=
  "chain_config_local_path not empty but chain_config_remote_dir empty".
Definition genesis_missing_msg (p : string) := "chain genesis file '" ++ p ++ "' not found".
Definition subnet_config_missing_msg (p : string) :=
  "subnet config file '" ++ p ++ "' not found".
Definition chain_config_missing_msg (p : string) :=
  "subnet chain config file '" ++ p ++ "' not found".

(** Lines 314-318: the VM id, from the flag or from the chain name. *)
Definition resolve_vm_id (opts : Flags) : option string :=
  if is_empty (vm_id opts) then vm_name_to_id env (chain_name opts)
  else id_from_str env (vm_id opts).

(** Lines 278-318: input checks, reading the genesis, resolving the VM id.
    Returns the genesis bytes and the VM id. *)
Definition preflight (opts : Flags) : M (string * string) :=
  if negb (path_exists env (vm_binary_local_path opts)) then
    throw (InvalidInput (vm_binary_missing_msg (vm_binary_local_path opts)))
  else if negb (is_empty (subnet_config_local_path opts))
          && is_empty (subnet_config_remote_dir opts) then
    throw (InvalidInput subnet_flags_msg)
  else if negb (is_empty (chain_config_local_path opts))
          && is_empty (chain_config_remote_dir opts) then
    throw (InvalidInput chain_flags_msg)
  else if negb (path_exists env (chain_genesis_path opts)) then
    throw (InvalidInput (genesis_missing_msg (chain_genesis_path opts)))
  else match read_file env (chain_genesis_path opts) with
  | None => throw (Other ("failed to open " ++ chain_genesis_path opts))
  | Some genesis =>
      match resolve_vm_id opts with
      | None => throw (Other "invalid vm id")
      | Some vm => ret (genesis, vm)
      end
  end.

(** Lines 320-406: read-only lookups and the confirmation prompt.  Returns
    [false] when the operator declines (the run then ends with Ok). *)
Definition lookups (opts : Flags) : M bool :=
  network_id <- call (EvGetNetworkId (chain_rpc_url opts)) (info_get_network_id env)
                     "get_network_id" ;;
  (if key_from_hex env (key opts) then ret tt else throw (Other "invalid private key")) ;;;
  check (EvBuildWallet (chain_rpc_url opts)) (wallet_build env) "wallet build" ;;;
  _ <- call EvGetBalance (p_balance env) "balance" ;;
  _ <- unwrap (to_hrp_address env network_id) "to_hrp_address" ;;
  emit (EvLoadAwsConfig (region opts)) ;;;
  (if aws_load_config env then ret tt else throw (Other "load_config")) ;;;
  check EvGetIdentity (sts_get_identity env) "get_identity" ;;;
  if negb (skip_prompt opts) then
    selected <- call EvPrompt (select_interact env) "interact" ;;
    ret (negb (selected =? 0))
  else ret true.

(** s3_manager.put_object(..).await.expect(msg) *)
Definition put_object (local bucket k msg : string) : M unit :=
  check (EvPutObject local bucket k) (s3_put_object env local bucket k) msg.

(** Lines 413-515: uploads; returns the VM binary key. *)
Definition stage_artifacts (opts : Flags) (vm : string) : M string :=
  (if negb (is_empty (subnet_config_local_path opts)) then
     if negb (path_exists env (subnet_config_local_path opts)) then
       throw (InvalidInput (subnet_config_missing_msg (subnet_config_local_path opts)))
     else
       k <- unwrap (config_s3_key (s3_key_prefix opts) (subnet_config_local_path opts))
                   "file_stem" ;;
       put_object (subnet_config_local_path opts) (s3_bucket opts) k
                  "failed put_object subnet_config_path"
   else ret tt) ;;;
  let vk := vm_binary_s3_key (s3_key_prefix opts) vm in
  put_object (vm_binary_local_path opts) (s3_bucket opts) vk
             "failed put_object vm_binary_path" ;;;
  (if negb (is_empty (chain_config_local_path opts)) then
     if negb (path_exists env (chain_config_local_path opts)) then
       throw (InvalidInput (chain_config_missing_msg (chain_config_local_path opts)))
     else
       k <- unwrap (config_s3_key (s3_key_prefix opts) (chain_config_local_path opts))
                   "file_stem" ;;
       put_object (chain_config_local_path opts) (s3_bucket opts) k
                  "failed put_object chain_config_path"
   else ret tt) ;;;
  ret vk.

(** units::cast_avax_to_xp_navax(..).as_u64() *)
Definition stake_amount_in_navax (avax : N) : M N :=
  let navax := avax * 1000000000 in
  if navax <? 2 ^ 64 then ret navax else throw (Panic "Integer overflow when casting to u64").

(** Lines 528-544. *)
Definition register_primary_validators (opts : Flags) : M unit :=
  stake <- stake_amount_in_navax (staking_amount_in_avax opts) ;;
  for_each (node_ids_to_instance_ids opts) (fun '(node_id, _) =>
    if node_id_from_str env node_id then
      check (EvAddValidator node_id stake 60 (staking_period_in_days opts) true)
            (p_add_validator env node_id) "add_validator"
    else throw (Panic "node::Id::from_str")).

(** Lines 557-574: dry pass, then the real pass; returns the real id. *)
Definition create_subnet_step : M string :=
  _ <- call (EvCreateSubnet true false) (p_create_subnet env true) "create_subnet dry" ;;
  created <- call (EvCreateSubnet false true) (p_create_subnet env false) "create_subnet" ;;
  emit (EvSleep 10) ;;;
  ret created.

(** One SSM send_command to all instances, then the settle delay. *)
Definition send_command (opts : Flags) (instances : list string) (args : string) : M string :=
  cmd <- call (EvSendCommand (ssm_doc opts) instances args)
              (ssm_send_command env instances args) "send_command" ;;
  emit (EvSleep 30) ;;;
  ret cmd.

(** Lines 587-630. *)
Definition dispatch_install_command (opts : Flags) (vk vm created : string)
  (instances : list string) : M string :=
  args <- unwrap (install_subnet_args opts vk vm created) "file_stem" ;;
  send_command opts instances args.

(** aws_manager::ssm::Manager::poll_command(command_id, instance_id,
    desired_status, timeout, interval): [Ok] once the invocation reaches the
    desired status; an invocation that ends in another status, or that has
    not reached it by the timeout, is an [Err]. *)
Definition poll_command (cmd instance_id : string) (desired_status : invocation_status)
  : option invocation_status :=
  match ssm_poll_command env cmd instance_id with
  | Some st => if invocation_status_eqb st desired_status then Some st else None
  | None => None
  end.

(** Lines 638-651 (and 766-779): every instance polled in turn for the
    Success status, each result unwrapped and only logged. *)
Definition poll_all (cmd : string) (instances : list string) : M unit :=
  for_each instances (fun instance_id =>
    _ <- call (EvPollCommand cmd instance_id 300 5) (poll_command cmd instance_id Success)
              "poll_command" ;;
    ret tt) ;;;
  emit (EvSleep 5).

(** Lines 664-677. *)
Definition register_subnet_validators (opts : Flags) (created : string)
  (node_ids : list string) : M unit :=
  for_each node_ids (fun node_id =>
    if node_id_from_str env node_id then
      days <- u64_sub (staking_period_in_days opts) 1 ;;
      check (EvAddSubnetValidator node_id created 60 days true)
            (p_add_subnet_validator env node_id created) "add_subnet_validator"
    else throw (Panic "node::Id::from_str")) ;;;
  emit (EvSleep 5).

(** Lines 690-714: dry pass, then the real pass; returns the real id. *)
Definition create_chain_step (opts : Flags) (created genesis vm : string) : M string :=
  _ <- call (EvCreateChain created genesis vm (chain_name opts) true false)
            (p_create_chain env true) "create_chain dry" ;;
  call (EvCreateChain created genesis vm (chain_name opts) false true)
       (p_create_chain env false) "create_chain".

(** Lines 724-758: the chain-config update command. *)
Definition dispatch_chain_config_command (opts : Flags) (blockchain_id : string)
  (instances : list string) : M string :=
  k <- unwrap (config_s3_key (s3_key_prefix opts) (chain_config_local_path opts))
              "file_stem" ;;
  send_command opts instances (install_chain_args opts k blockchain_id).

(** pub async fn execute(opts: Flags) -> io::Result<()> *)
Definition execute (opts : Flags) : M unit :=
  enter Preflight ;;;
  gv <- preflight opts ;;
  let '(genesis, vm) := gv in
  enter Lookups ;;;
  proceed <- lookups opts ;;
  let all_node_ids := map fst (node_ids_to_instance_ids opts) in
  let all_instance_ids := map snd (node_ids_to_instance_ids opts) in
  if proceed then
    enter StageArtifacts ;;;
    vk <- stage_artifacts opts vm ;;
    enter RegisterPrimaryValidators ;;;
    register_primary_validators opts ;;;
    enter CreateSubnet ;;;
    created <- create_subnet_step ;;
    enter DispatchInstallCommand ;;;
    cmd <- dispatch_install_command opts vk vm created all_instance_ids ;;
    enter PollInstallCommand ;;;
    poll_all cmd all_instance_ids ;;;
    enter RegisterSubnetValidators ;;;
    register_subnet_validators opts created all_node_ids ;;;
    enter CreateChain ;;;
    blockchain_id <- create_chain_step opts created genesis vm ;;
    (if negb (is_empty (chain_config_local_path opts)) then
       enter DispatchChainConfigCommand ;;;
       cmd2 <- dispatch_chain_config_command opts blockchain_id all_instance_ids ;;
       enter PollChainConfigCommand ;;;
       poll_all cmd2 all_instance_ids
     else ret tt) ;;;
    enter Done ;;;
    emit (EvReport created blockchain_id)
  else ret tt.

End Program.

(** A run from clock [t0]. *)
Definition run (env : Env) (opts : Flags) (t0 : N) : list entry * St * res unit :=
  execute env opts (mkSt t0 Preflight).

Definition trace_of (env : Env) (opts : Flags) (t0 : N) : list event :=
  map ev (fst (fst (run env opts t0))).

Definition result_of (env : Env) (opts : Flags) (t0 : N) : res unit :=
  snd (run env opts t0).

(* ------------------------------------------------------------------ *)
(** ** Trace predicates *)

Section Traces.
Variable env : Env.

(** Consecutive timestamps: each event starts when the previous one ended. *)
Fixpoint timed (t : N) (w : list entry) (t' : N) : Prop :=
  match w with
  | [] => t = t'
  | x :: r => time x = t /\ timed (t + duration env (ev x)) r t'
  end.

Fixpoint elapsed (w : list entry) : N :=
  match w with
  | [] => 0
  | x :: r => duration env (ev x) + elapsed r
  end.

Definition is_marker (e : event) : bool :=
  match e with EvStage _ => true | _ => false end.

(** The stage in force after the events [es], starting from [k]. *)
Fixpoint last_stage (k : stage) (es : list event) : stage :=
  match es with
  | [] => k
  | EvStage k' :: r => last_stage k' r
  | _ :: r => last_stage k r
  end.

(** The stages entered, in order. *)
Fixpoint stages_of (es : list event) : list stage :=
  match es with
  | [] => []
  | EvStage k :: r => k :: stages_of r
  | _ :: r => stages_of r
  end.

(** [sat P Q m]: whatever state [m] starts in, its events are consecutive in
    time, satisfy [P], its stage markers determine the final stage, and an
    error it raises is tagged with that stage and satisfies [Q]. *)
Definition sat {A} (P : event -> Prop) (Q : error -> Prop) (m : M A) : Prop :=
  forall s w s' r, m s = (w, s', r) ->
    timed (clock s) w (clock s') /\ cur s' = last_stage (cur s) (map ev w) /\
    Forall P (map ev w) /\ (forall k e, r = Err k e -> k = cur s' /\ Q e).

(** [returns R m]: every value [m] returns satisfies [R]. *)
Definition returns {A} (R : A -> Prop) (m : M A) : Prop :=
  forall s w s' a, m s = (w, s', Ok a) -> R a.

(** The kinds of effect each stage performs. *)
Definition belongs (k : stage) (e : event) : Prop :=
  match k, e with
  | Lookups, (EvGetNetworkId _ | EvBuildWallet _ | EvGetBalance | EvLoadAwsConfig _
             | EvGetIdentity | EvPrompt) => True
  | StageArtifacts, EvPutObject _ _ _ => True
  | RegisterPrimaryValidators, EvAddValidator _ _ _ _ _ => True
  | CreateSubnet, (EvCreateSubnet _ _ | EvSleep _) => True
  | DispatchInstallCommand, (EvSendCommand _ _ _ | EvSleep _) => True
  | PollInstallCommand, (EvPollCommand _ _ _ _ | EvSleep _) => True
  | RegisterSubnetValidators, (EvAddSubnetValidator _ _ _ _ _ | EvSleep _) => True
  | CreateChain, EvCreateChain _ _ _ _ _ _ => True
  | DispatchChainConfigCommand, (EvSendCommand _ _ _ | EvSleep _) => True
  | PollChainConfigCommand, (EvPollCommand _ _ _ _ | EvSleep _) => True
  | Done, EvReport _ _ => True
  | _, _ => False
  end.

(** Every event of [es] belongs to the stage in force when it happens. *)
Fixpoint staged (k : stage) (es : list event) : Prop :=
  match es with
  | [] => True
  | EvStage k' :: r => staged k' r
  | e :: r => belongs k e /\ staged k r
  end.

Definition canonical_stages (opts : Flags) : list stage :=
  [Preflight; Lookups; StageArtifacts; RegisterPrimaryValidators; CreateSubnet;
   DispatchInstallCommand; PollInstallCommand; RegisterSubnetValidators; CreateChain]
  ++ (if negb (is_empty (chain_config_local_path opts))
      then [DispatchChainConfigCommand; PollChainConfigCommand] else [])
  ++ [Done].

(** The S3 key of an upload: a config key or the VM binary key. *)
Definition artifact_key (opts : Flags) (local k : string) : Prop :=
  (local = subnet_config_local_path opts /\ is_empty local = false /\
   config_s3_key (s3_key_prefix opts) local = Some k)
  \/ (local = vm_binary_local_path opts /\
      exists vm, resolve_vm_id env opts = Some vm /\ k = vm_binary_s3_key (s3_key_prefix opts) vm)
  \/ (local = chain_config_local_path opts /\ is_empty local = false /\
      config_s3_key (s3_key_prefix opts) local = Some k).

(** The remote command lines: install-subnet with the real subnet id, or
    install-chain with the real blockchain id. *)
Definition command_args (opts : Flags) (args : string) : Prop :=
  (exists sid vm, p_create_subnet env false = Some sid /\ resolve_vm_id env opts = Some vm /\
     install_subnet_args opts (vm_binary_s3_key (s3_key_prefix opts) vm) vm sid = Some args)
  \/ (exists bid k, p_create_chain env false = Some bid /\
      is_empty (chain_config_local_path opts) = false /\
      config_s3_key (s3_key_prefix opts) (chain_config_local_path opts) = Some k /\
      args = install_chain_args opts k bid).

(** What each event of a run of [execute opts] carries. *)
Definition event_ok (opts : Flags) (e : event) : Prop :=
  let nodes := node_ids_to_instance_ids opts in
  match e with
  | EvStage _ => True
  | EvGetNetworkId u => u = chain_rpc_url opts
  | EvBuildWallet u => u = chain_rpc_url opts
  | EvGetBalance => True
  | EvLoadAwsConfig r => r = region opts
  | EvGetIdentity => True
  | EvPrompt => skip_prompt opts = false
  | EvPutObject local bucket k => bucket = s3_bucket opts /\ artifact_key opts local k
  | EvAddValidator n stake o days c =>
      In n (map fst nodes) /\ stake = staking_amount_in_avax opts * 1000000000 /\
      o = 60 /\ days = staking_period_in_days opts /\ c = true
  | EvCreateSubnet dry c => c = negb dry
  | EvSendCommand doc insts args =>
      doc = ssm_doc opts /\ insts = map snd nodes /\ command_args opts args
  | EvPollCommand cmd i t iv =>
      In i (map snd nodes) /\ t = 300 /\ iv = 5 /\
      exists args, command_args opts args /\ ssm_send_command env (map snd nodes) args = Some cmd
  | EvAddSubnetValidator n sid o days c =>
      In n (map fst nodes) /\ p_create_subnet env false = Some sid /\ o = 60 /\
      days + 1 = staking_period_in_days opts /\ c = true
  | EvCreateChain sid g vm name dry c =>
      p_create_subnet env false = Some sid /\ read_file env (chain_genesis_path opts) = Some g /\
      resolve_vm_id env opts = Some vm /\ name = chain_name opts /\ c = negb dry
  | EvSleep n => n = 10 \/ n = 30 \/ n = 5
  | EvReport sid bid => p_create_subnet env false = Some sid /\ p_create_chain env false = Some bid
  end.

End Traces.

Definition underflow_msg := "attempt to subtract with overflow".

(** Events that only read: the lookups and the prompt (and stage markers). *)
Definition read_only (e : event) : bool :=
  match e with
  | EvStage _ | EvGetNetworkId _ | EvBuildWallet _ | EvGetBalance | EvLoadAwsConfig _
  | EvGetIdentity | EvPrompt => true
  | _ => false
  end.

(** Ledger transactions and remote dispatches. *)
Definition ledger_or_dispatch (e : event) : bool :=
  match e with
  | EvAddValidator _ _ _ _ _ | EvCreateSubnet _ _ | EvAddSubnetValidator _ _ _ _ _
  | EvCreateChain _ _ _ _ _ _ | EvSendCommand _ _ _ | EvPollCommand _ _ _ _ => true
  | _ => false
  end.

Definition is_upload (e : event) : bool :=
  match e with EvPutObject _ _ _ => true | _ => false end.

(** Calls that go over the network (everything but markers, sleeps, the
    prompt and the final report). *)
Definition network_call (e : event) : bool :=
  match e with
  | EvStage _ | EvSleep _ | EvPrompt | EvReport _ _ => false
  | _ => true
  end.

(** An event of stage [k] of a run of [execute opts]. *)
Definition stage_ok (env : Env) (opts : Flags) (k : stage) (e : event) : Prop :=
  event_ok env opts e /\ belongs k e.

(** The only error that depends on the staking period is the underflow of
    [staking_period_in_days - 1]. *)
Definition err_ok (opts : Flags) (e : error) : Prop :=
  e = Panic underflow_msg -> staking_period_in_days opts = 0.

(* ------------------------------------------------------------------ *)
(** ** Projections of a trace *)

Definition primary_nodes (es : list event) : list string :=
  flat_map (fun e => match e with EvAddValidator n _ _ _ _ => [n] | _ => [] end) es.

Definition subnet_nodes (es : list event) : list string :=
  flat_map (fun e => match e with EvAddSubnetValidator n _ _ _ _ => [n] | _ => [] end) es.

Definition polled_instances (es : list event) : list string :=
  flat_map (fun e => match e with EvPollCommand _ i _ _ => [i] | _ => [] end) es.

(** The (dry_mode, check_acceptance) flags of the create_subnet calls. *)
Definition subnet_creations (es : list event) : list (bool * bool) :=
  flat_map (fun e => match e with EvCreateSubnet d c => [(d, c)] | _ => [] end) es.

Definition chain_creations (es : list event) : list (bool * bool) :=
  flat_map (fun e => match e with EvCreateChain _ _ _ _ d c => [(d, c)] | _ => [] end) es.

(** The final reports: (subnet id, blockchain id). *)
Definition reports (es : list event) : list (string * string) :=
  flat_map (fun e => match e with EvReport s b => [(s, b)] | _ => [] end) es.

(** Errors other than input errors. *)
Definition no_input_error (e : error) : Prop :=
  match e with InvalidInput _ => False | _ => True end.

(* ------------------------------------------------------------------ *)
(** ** The S3 key of the spec *)

(** Modelled from the spec: "prefix + basename(local_path)" for a config
    file, where the basename is the last path component, extension kept. *)
Definition spec_config_s3_key (prefix path : string) : option string :=
  option_map (fun base => prefix ++ base) (file_name path).

(* ------------------------------------------------------------------ *)
(** ** Command-line parsing (lines 63-83, 149-157) *)

(** `HashMap::insert`: a key already present gets the new value. *)
Fixpoint map_insert (k v : string) (m : list (string * string)) : list (string * string) :=
  match m with
  | [] => [(k, v)]
  | (k', v') :: r => if String.eqb k k' then (k, v) :: r else (k', v') :: map_insert k v r
  end.

(** serde_json's deserialisation of a JSON object into a
    `HashMap<String, String>`: the members are inserted in order.  The JSON
    text is given by its members, [None] when it does not parse as an object
    of strings. *)
Definition parse_node_map (members : option (list (string * string)))
  : option (list (string * string)) :=
  option_map (fun ms => fold_left (fun m kv => map_insert (fst kv) (snd kv) m) ms []) members.

(** `value_parser!(u64)` with `default_value("15")`: an absent argument is 15,
    a number beyond u64 is refused; nothing else is checked. *)
Definition parse_staking_period (arg : option N) : option N :=
  match arg with
  | None => Some 15
  | Some n => if n <? 2 ^ 64 then Some n else None
  end.

(* ------------------------------------------------------------------ *)
(** ** Sample inputs *)

(** Services that all answer: the dry passes return "dry-subnet" and
    "dry-chain", the real ones "real-subnet" and "real-chain"; each call
    takes one second. *)
Definition sample_env (exists_ : string -> bool) (select : option N)
  (poll : string -> string -> option invocation_status) : Env :=
  mkEnv exists_ (fun _ => Some "genesis") (fun _ => Some "vm-from-name") (fun s => Some s)
    (Some 1) (fun _ => true) true (Some 5) (fun _ => Some "P-addr") true true select
    (fun _ _ _ => true) (fun _ => true) (fun _ => true)
    (fun dry => if dry then Some "dry-subnet" else Some "real-subnet")
    (fun _ _ => Some "cmd1") poll (fun _ _ => true)
    (fun dry => if dry then Some "dry-chain" else Some "real-chain") (fun _ => 1).

Definition all_exist (_ : string) : bool := true.

Definition all_succeed (_ _ : string) : option invocation_status := Some Success.

Definition sample_opts (skip : bool) (days : N) (chain_local : string)
  (nodes : list (string * string)) : Flags :=
  mkFlags "info" skip "us-west-2" "bucket" "pfx" "doc" "http://rpc" "hexkey" days 2000
    "" "" "/tmp/vm" "/plugins" "vmid" "chain" "/tmp/genesis.json" chain_local "/cdir"
    "/etc/avalanche.json" nodes.

Definition two_nodes : list (string * string) := [("n1", "i1"); ("n2", "i2")].

(** The same request with a subnet config file and a chain config file. *)
Definition sample_configs_opts (subnet_local chain_local : string) : Flags :=
  mkFlags "info" true "us-west-2" "bucket" "pfx" "doc" "http://rpc" "hexkey" 15 2000
    subnet_local "/sdir" "/tmp/vm" "/plugins" "vmid" "chain" "/tmp/genesis.json" chain_local
    "/cdir" "/etc/avalanche.json" two_nodes.

(** The same request with a subnet config file to upload. *)
Definition sample_subnet_opts (subnet_local : string) : Flags :=
  mkFlags "info" true "us-west-2" "bucket" "pfx" "doc" "http://rpc" "hexkey" 15 2000
    subnet_local "/sdir" "/tmp/vm" "/plugins" "vmid" "chain" "/tmp/genesis.json" "" "/cdir"
    "/etc/avalanche.json" two_nodes.

(* ------------------------------------------------------------------ *)
(** ** Further definitions: alternative inputs, the node map, avalanche-kms *)

Definition overflow_msg := "Integer overflow when casting to u64".

(** The sample request with another stake amount. *)
Definition sample_stake_opts (avax : N) : Flags :=
  mkFlags "info" true "us-west-2" "bucket" "pfx" "doc" "http://rpc" "hexkey" 15 avax
    "" "" "/tmp/vm" "/plugins" "vmid" "chain" "/tmp/genesis.json" "" "/cdir"
    "/etc/avalanche.json" two_nodes.

(** The environment [env] with the dry passes of create_subnet and
    create_chain answering [ds] and [dc]. *)
Definition with_dry_ids (env : Env) (ds dc : string) : Env :=
  mkEnv (path_exists env) (read_file env) (vm_name_to_id env) (id_from_str env)
    (info_get_network_id env) (key_from_hex env) (wallet_build env) (p_balance env)
    (to_hrp_address env) (aws_load_config env) (sts_get_identity env) (select_interact env)
    (s3_put_object env) (node_id_from_str env) (p_add_validator env)
    (fun dry => if dry then Some ds else p_create_subnet env false)
    (ssm_send_command env) (ssm_poll_command env) (p_add_subnet_validator env)
    (fun dry => if dry then Some dc else p_create_chain env false) (latency env).

Definition same_run {A} (m1 m2 : M A) : Prop := forall s, m1 s = m2 s.

Fixpoint map_get (k : string) (m : list (string * string)) : option string :=
  match m with
  | [] => None
  | (k', v) :: r => if String.eqb k k' then Some v else map_get k r
  end.

(** The value of the last member with key [k]. *)
Definition last_member_value (k : string) (ms : list (string * string)) : option string :=
  fold_left (fun acc kv => if String.eqb k (fst kv) then Some (snd kv) else acc) ms None.

Module Kms.

(** The decimal rendering of a number (Display for integers). *)
Fixpoint decimal_digits (fuel : nat) (n : N) (acc : string) : string :=
  match fuel with
  | O => acc
  | S f =>
      let d := ascii_of_N (48 + n mod 10) in
      if n <? 10 then String d acc else decimal_digits f (n / 10) (String d acc)
  end.

Definition decimal (n : N) : string := decimal_digits (S (N.size_nat n)) n "".

(** primitive_types::U256::checked_pow and checked_div. *)
Definition u256_checked_pow (b e : N) : option N :=
  let r := b ^ e in if r <? 2 ^ 256 then Some r else None.

Definition u256_checked_div (a b : N) : option N :=
  if b =? 0 then None else Some (a / b).

(** ethers::utils::Units::Ether.as_num() *)
Definition ether_decimals : N := 18.

(** The info of a KMS CMK: its H160 (EVM) address and the rendered ETH
    address. *)
Record CmkInfo := mkCmkInfo { h160_address : string; eth_address : string }.

Inductive kevent :=
| KGetNetworkId (rpc_url : string)
| KLoadAwsConfig (region : string)
| KGetIdentity
| KLoadCmk (key_arn : string) (retry_timeout retry_interval : N)
| KShowInfo (info : CmkInfo) (network_id : N)
| KGetBalance (rpc_url address : string)
| KShowBalance (address : string) (balance whole : N).

(** The services the commands call; [None] or [false] is an error result. *)
Record KEnv := mkKEnv {
  (** utils::urls::extract_scheme_host_port_path_chain_alias: scheme, host, port *)
  extract_scheme_host_port : string -> option (option string * string * option N);
  (** json_client_info::get_network_id: the response and its optional result *)
  get_network_id : string -> option (option N);
  load_config : string -> bool;
  get_identity : bool;
  (** Cmk::from_arn, then Cmk::to_info for a network id *)
  cmk_from_arn : string -> option string;
  cmk_to_info : string -> N -> option CmkInfo;
  stdout_ok : bool;
  (** avalanche_sdk_evm::get_balance *)
  get_balance : string -> string -> option N
}.

Inductive kres (A : Type) :=
| KOk (a : A)
| KErr (e : error).
Arguments KOk {A} a.
Arguments KErr {A} e.

(** The commands' outcome: the events, then a value or the error. *)
Definition KM (A : Type) := (list kevent * kres A)%type.

Definition kret {A} (a : A) : KM A := ([], KOk a).
Definition kfail {A} (e : error) : KM A := ([], KErr e).
Definition kbind {A B} (m : KM A) (f : A -> KM B) : KM B :=
  match m with
  | (w1, KOk a) => let '(w2, r) := f a in ((w1 ++ w2)%list, r)
  | (w1, KErr e) => (w1, KErr e)
  end.
Definition kemit (e : kevent) : KM unit := ([e], KOk tt).
Definition kunwrap {A} (o : option A) (msg : string) : KM A :=
  match o with Some a => kret a | None => kfail (Panic msg) end.
(** An effect followed by `.unwrap()` of its result. *)
Definition kcall {A} (e : kevent) (o : option A) (msg : string) : KM A :=
  kbind (kemit e) (fun _ => kunwrap o msg).
(** An effect whose error is returned with `?`. *)
Definition ktry {A} (e : kevent) (o : option A) (msg : string) : KM A :=
  kbind (kemit e) (fun _ => match o with Some a => kret a | None => kfail (Other msg) end).

Notation "x <-- m ;; k" := (kbind m (fun x => k))
  (at level 61, m at next level, right associativity).

(** info/mod.rs lines 76-86: the RPC endpoint rebuilt from the URL. *)
Definition rpc_url_of (scheme : option string) (host : string) (port : option N) : string :=
  let scheme := match scheme with Some s => s ++ "://" | None => "" end in
  let rpc_ep := scheme ++ host in
  match port with Some p => rpc_ep ++ ":" ++ decimal p | None => rpc_ep end.

Section Commands.
Variable env : KEnv.

(** info/mod.rs lines 71-90. *)
Definition network_id_of (chain_rpc_url : string) : KM N :=
  if is_empty chain_rpc_url then kret 1
  else
    shp <-- kunwrap (extract_scheme_host_port env chain_rpc_url) "extract_scheme_host_port" ;;
    let '(scheme, host, port) := shp in
    let rpc_url := rpc_url_of scheme host port in
    resp <-- kcall (KGetNetworkId rpc_url) (get_network_id env rpc_url) "get_network_id" ;;
    kunwrap resp "result".

(** info/mod.rs: pub async fn execute(log_level, region, key_arn, chain_rpc_url) *)
Definition info_execute (region key_arn chain_rpc_url : string) : KM unit :=
  network_id <-- network_id_of chain_rpc_url ;;
  _ <-- kcall (KLoadAwsConfig region) (if load_config env region then Some tt else None)
              "load_config" ;;
  _ <-- kcall KGetIdentity (if get_identity env then Some tt else None) "get_identity" ;;
  _ <-- (if stdout_ok env then kret tt else kfail (Other "stdout")) ;;
  cmk <-- kcall (KLoadCmk key_arn 300 10) (cmk_from_arn env key_arn) "from_arn" ;;
  info <-- kunwrap (cmk_to_info env cmk network_id) "to_info" ;;
  _ <-- kemit (KShowInfo info network_id) ;;
  if negb (is_empty chain_rpc_url) then
    eth <-- kunwrap (u256_checked_pow 10 ether_decimals) "checked_pow" ;;
    balance <-- ktry (KGetBalance chain_rpc_url (h160_address info))
                     (get_balance env chain_rpc_url (h160_address info)) "get_balance" ;;
    whole <-- kunwrap (u256_checked_div balance eth) "checked_div" ;;
    kemit (KShowBalance (eth_address info) balance whole)
  else kret tt.

(** balance/mod.rs: pub async fn execute(log_level, chain_rpc_url, addr) *)
Definition balance_execute (chain_rpc_url addr : string) : KM unit :=
  eth <-- kunwrap (u256_checked_pow 10 ether_decimals) "checked_pow" ;;
  balance <-- ktry (KGetBalance chain_rpc_url addr) (get_balance env chain_rpc_url addr)
                   "get_balance" ;;
  whole <-- kunwrap (u256_checked_div balance eth) "checked_div" ;;
  kemit (KShowBalance addr balance whole).

End Commands.

Definition is_rpc_call (e : kevent) : bool :=
  match e with KGetNetworkId _ | KGetBalance _ _ => true | _ => false end.

(** A KMS key and an RPC endpoint that all answer. *)
Definition sample_kenv : KEnv :=
  mkKEnv (fun _ => Some (Some "http", "localhost", Some 9650))
    (fun u => if String.eqb u "http://localhost:9650" then Some (Some 43114) else None)
    (fun _ => true) true (fun a => Some ("cmk:" ++ a))
    (fun _ _ => Some (mkCmkInfo "0xh160" "0xeth")) true
    (fun _ _ => Some 2500000000000000000).

End Kms.

(* ------------------------------------------------------------------ *)
(** ** The program logic *)

Section Logic.
Variable env : Env.

Lemma timed_app (t t'' : N) (a b : list entry) :
  timed env t (a ++ b) t'' <-> exists t', timed env t a t' /\ timed env t' b t''.
Proof.
  revert t; induction a as [|x a IH]; intros t; cbn.
  - split; [intros H; exists t; auto | intros (t' & -> & H); exact H].
  - split.
    + intros [Hx H]. apply IH in H as (t' & H1 & H2). exists t'; auto.
    + intros (t' & [Hx H1] & H2). split; [exact Hx|]. apply IH. eauto.
Qed.

Lemma timed_end (t t' : N) (w : list entry) :
  timed env t w t' -> t' = t + elapsed env w.
Proof.
  revert t; induction w as [|x w IH]; cbn; intros t H.
  - lia.
  - destruct H as [_ H]. apply IH in H. lia.
Qed.

Lemma timed_in (t t' : N) (w : list entry) (x : entry) :
  timed env t w t' -> In x w -> t <= time x /\ time x + duration env (ev x) <= t'.
Proof.
  revert t; induction w as [|y w IH]; cbn; intros t H Hin; [contradiction|].
  destruct H as [Hy H]. destruct Hin as [<-|Hin].
  - apply timed_end in H. lia.
  - specialize (IH _ H Hin). lia.
Qed.

Lemma elapsed_app (a b : list entry) : elapsed env (a ++ b) = elapsed env a + elapsed env b.
Proof. induction a as [|x a IH]; cbn; lia. Qed.

Lemma elapsed_in (w : list entry) (x : entry) : In x w -> duration env (ev x) <= elapsed env w.
Proof.
  induction w as [|y w IH]; cbn; [contradiction|]. intros [->|H]; [lia|]. apply IH in H. lia.
Qed.

(** An event of [a] precedes an event of [c] by at least the time spent in
    [b]. *)
Lemma timed_gap (t t' : N) (a b c : list entry) (p q : entry) :
  timed env t (a ++ b ++ c) t' -> In p a -> In q c ->
  time p + elapsed env b <= time q.
Proof.
  intros H Hp Hq.
  apply timed_app in H as (t1 & Ha & H). apply timed_app in H as (t2 & Hb & Hc).
  apply timed_in with (x := p) in Ha; [|exact Hp].
  apply timed_in with (x := q) in Hc; [|exact Hq].
  apply timed_end in Hb. lia.
Qed.

Lemma last_stage_app (k : stage) (a b : list event) :
  last_stage k (a ++ b) = last_stage (last_stage k a) b.
Proof.
  revert k; induction a as [|x a IH]; intros k; cbn; [reflexivity|].
  destruct x; apply IH.
Qed.

Lemma stages_of_app (a b : list event) : stages_of (a ++ b) = (stages_of a ++ stages_of b)%list.
Proof. induction a as [|x a IH]; cbn; [reflexivity|]. destruct x; cbn; congruence. Qed.

Lemma staged_app (k : stage) (a b : list event) :
  staged k (a ++ b) <-> staged k a /\ staged (last_stage k a) b.
Proof.
  revert k; induction a as [|x a IH]; intros k; cbn; [tauto|].
  destruct x; rewrite IH; tauto.
Qed.

(** Marker-free events all belonging to [k] keep [staged k]. *)
Lemma staged_of_forall (k : stage) (es : list event) :
  Forall (fun e => is_marker e = false /\ belongs k e) es -> staged k es /\ last_stage k es = k.
Proof.
  induction 1 as [|e es [Hm Hb] _ IH]; cbn; [auto|].
  destruct e; try discriminate; tauto.
Qed.

Lemma stages_of_nomarker (es : list event) :
  Forall (fun e => is_marker e = false) es -> stages_of es = [].
Proof. induction 1 as [|e es He _ IH]; cbn; [reflexivity|]. destruct e; try discriminate; exact IH. Qed.

Lemma sat_weaken {A} (P P' : event -> Prop) (Q Q' : error -> Prop) (m : M A) :
  (forall e, P e -> P' e) -> (forall e, Q e -> Q' e) -> sat env P Q m -> sat env P' Q' m.
Proof.
  intros HP HQ H s w s' r E. destruct (H s w s' r E) as (H1 & H2 & H3 & H4).
  split; [exact H1|]. split; [exact H2|]. split.
  - eapply Forall_impl; [exact HP| exact H3].
  - intros k e Hr. destruct (H4 k e Hr). auto.
Qed.

Lemma sat_conj {A} (P P' : event -> Prop) (Q Q' : error -> Prop) (m : M A) :
  sat env P Q m -> sat env P' Q' m -> sat env (fun e => P e /\ P' e) (fun e => Q e /\ Q' e) m.
Proof.
  intros H H' s w s' r E. destruct (H s w s' r E) as (H1 & H2 & H3 & H4).
  destruct (H' s w s' r E) as (_ & _ & H3' & H4').
  split; [exact H1|]. split; [exact H2|]. split.
  - clear -H3 H3'. induction H3; inversion H3'; subst; constructor; auto.
  - intros k e Hr. destruct (H4 k e Hr), (H4' k e Hr). auto.
Qed.

Lemma sat_ret {A} (P : event -> Prop) (Q : error -> Prop) (a : A) : sat env P Q (ret a).
Proof.
  intros s w s' r E. unfold ret in E. inversion E; subst. cbn.
  repeat split; auto; discriminate.
Qed.

Lemma sat_throw {A} (P : event -> Prop) (Q : error -> Prop) (e : error) :
  Q e -> sat env P Q (@throw A e).
Proof.
  intros HQ s w s' r E. unfold throw in E. inversion E; subst. cbn.
  split; [reflexivity|]. split; [reflexivity|]. split; [constructor|].
  intros k' e' H; inversion H; subst; auto.
Qed.

Lemma sat_emit (P : event -> Prop) (Q : error -> Prop) (e : event) :
  is_marker e = false -> P e -> sat env P Q (emit env e).
Proof.
  intros Hm HP s w s' r E. unfold emit in E. inversion E; subst. cbn.
  split; [auto|]. split; [destruct e; try discriminate; reflexivity|].
  split; [auto|]. discriminate.
Qed.

Lemma sat_enter (P : event -> Prop) (Q : error -> Prop) (k : stage) :
  P (EvStage k) -> sat env P Q (enter k).
Proof.
  intros HP s w s' r E. unfold enter in E. inversion E; subst. cbn.
  split; [lia|]. split; [reflexivity|]. split; [auto|]. discriminate.
Qed.

Lemma sat_bind {A B} (P : event -> Prop) (Q : error -> Prop) (R : A -> Prop)
  (m : M A) (f : A -> M B) :
  sat env P Q m -> returns R m -> (forall a, R a -> sat env P Q (f a)) ->
  sat env P Q (bind m f).
Proof.
  intros Hm HR Hf s w s' r E. unfold bind, bind_cont in E.
  destruct (m s) as [[w1 s1] [a|k e]] eqn:E1.
  - destruct (f a s1) as [[w2 s2] r2] eqn:E2. inversion E; subst.
    destruct (Hm _ _ _ _ E1) as (T1 & C1 & F1 & _).
    destruct (Hf a (HR _ _ _ _ E1) _ _ _ _ E2) as (T2 & C2 & F2 & X2).
    split; [apply timed_app; eauto|].
    split; [rewrite map_app, last_stage_app, <- C1; exact C2|].
    split; [rewrite map_app; apply Forall_app; auto|exact X2].
  - inversion E; subst. destruct (Hm _ _ _ _ E1) as (T1 & C1 & F1 & X1).
    split; [exact T1|]. split; [exact C1|]. split; [exact F1|].
    intros k' e' H; inversion H; subst. apply (X1 k' e'); reflexivity.
Qed.

Lemma sat_bind' {A B} (P : event -> Prop) (Q : error -> Prop) (m : M A) (f : A -> M B) :
  sat env P Q m -> (forall a, sat env P Q (f a)) -> sat env P Q (bind m f).
Proof.
  intros Hm Hf. apply sat_bind with (R := fun _ => True); auto.
  intros s w s' a _; exact I.
Qed.

Lemma sat_unwrap {A} (P : event -> Prop) (Q : error -> Prop) (o : option A) (msg : string) :
  (o = None -> Q (Panic msg)) -> sat env P Q (unwrap o msg).
Proof.
  intros HQ. destruct o; cbn; [apply sat_ret|apply sat_throw; auto].
Qed.

Lemma sat_call {A} (P : event -> Prop) (Q : error -> Prop) (e : event) (o : option A)
  (msg : string) :
  is_marker e = false -> P e -> (o = None -> Q (Panic msg)) -> sat env P Q (call env e o msg).
Proof.
  intros. unfold call. apply sat_bind'; [apply sat_emit; auto|]. intros _. apply sat_unwrap; auto.
Qed.

Lemma sat_check (P : event -> Prop) (Q : error -> Prop) (e : event) (ok : bool) (msg : string) :
  is_marker e = false -> P e -> (ok = false -> Q (Panic msg)) -> sat env P Q (check env e ok msg).
Proof.
  intros. unfold check. apply sat_bind'; [apply sat_emit; auto|]. intros _.
  destruct ok; [apply sat_ret|apply sat_throw; auto].
Qed.

Lemma sat_for_each {A} (P : event -> Prop) (Q : error -> Prop) (xs : list A) (f : A -> M unit) :
  (forall x, In x xs -> sat env P Q (f x)) -> sat env P Q (for_each xs f).
Proof.
  induction xs as [|x xs IH]; cbn; intros H; [apply sat_ret|].
  apply sat_bind'; [apply H; auto|]. intros _. apply IH. auto.
Qed.

Lemma returns_ret {A} (R : A -> Prop) (a : A) : R a -> returns R (ret a).
Proof. intros HR s w s' a' E. unfold ret in E. inversion E; subst; exact HR. Qed.

Lemma returns_throw {A} (R : A -> Prop) (e : error) : returns R (@throw A e).
Proof. intros s w s' a E. unfold throw in E. inversion E. Qed.

Lemma returns_bind {A B} (R1 : A -> Prop) (R : B -> Prop) (m : M A) (f : A -> M B) :
  returns R1 m -> (forall a, R1 a -> returns R (f a)) -> returns R (bind m f).
Proof.
  intros Hm Hf s w s' b E. unfold bind, bind_cont in E.
  destruct (m s) as [[w1 s1] [a|k e]] eqn:E1; [|discriminate].
  destruct (f a s1) as [[w2 s2] r2] eqn:E2. inversion E; subst.
  exact (Hf a (Hm _ _ _ _ E1) _ _ _ _ E2).
Qed.

Lemma returns_bind' {A B} (R : B -> Prop) (m : M A) (f : A -> M B) :
  (forall a, returns R (f a)) -> returns R (bind m f).
Proof.
  intros Hf. apply returns_bind with (R1 := fun _ => True); auto.
  intros s w s' a _; exact I.
Qed.

Lemma returns_unwrap {A} (R : A -> Prop) (o : option A) (msg : string) :
  (forall a, o = Some a -> R a) -> returns R (unwrap o msg).
Proof. intros H. destruct o; cbn; [apply returns_ret; auto|apply returns_throw]. Qed.

Lemma returns_call {A} (R : A -> Prop) (e : event) (o : option A) (msg : string) :
  (forall a, o = Some a -> R a) -> returns R (call env e o msg).
Proof. intros H. unfold call. apply returns_bind'. intros _. apply returns_unwrap; auto. Qed.

End Logic.

Ltac sat_side :=
  first [ reflexivity
        | intros ?Hn; unfold err_ok, underflow_msg; intros ?Hp; discriminate Hp
        | cbn; unfold err_ok, underflow_msg; intros ?Hp; discriminate Hp ].

Ltac sat_step :=
  match goal with
  | |- sat _ _ _ (bind (unwrap ?o _) _) =>
      apply sat_bind with (R := fun a => o = Some a);
      [| apply returns_unwrap; intros ? ?; assumption | intros ? ?]
  | |- sat _ _ _ (bind (call _ _ ?o _) _) =>
      apply sat_bind with (R := fun a => o = Some a);
      [| apply returns_call; intros ? ?; assumption | intros ? ?]
  | |- sat _ _ _ (bind _ _) => apply sat_bind'; [| intros ?]
  | |- sat _ _ _ (ret _) => apply sat_ret
  | |- sat _ _ _ (throw _) => apply sat_throw; sat_side
  | |- sat _ _ _ (emit _ _) => apply sat_emit; [reflexivity|]
  | |- sat _ _ _ (call _ _ _ _) => apply sat_call; [reflexivity| |sat_side]
  | |- sat _ _ _ (check _ _ _ _) => apply sat_check; [reflexivity| |sat_side]
  | |- sat _ _ _ (unwrap _ _) => apply sat_unwrap; sat_side
  | |- sat _ _ _ (if ?b then _ else _) => destruct b eqn:?
  end.

(* ------------------------------------------------------------------ *)
(** ** The effects of each stage *)

Section Stages.
Variable env : Env.
Variable opts : Flags.

Lemma preflight_silent (s s' : St) (w : list entry) (r : res (string * string)) :
  preflight env opts s = (w, s', r) -> w = [] /\ s' = s.
Proof.
  unfold preflight.
  repeat match goal with |- context [if ?b then _ else _] => destruct b end;
    try (unfold throw; intros E; inversion E; auto; fail).
  destruct (read_file env (chain_genesis_path opts));
    [destruct (resolve_vm_id env opts)|]; cbn; intros E; inversion E; auto.
Qed.

Lemma preflight_sat (P : event -> Prop) : sat env P (err_ok opts) (preflight env opts).
Proof.
  intros s w s' r E. pose proof (preflight_silent _ _ _ _ E) as [-> ->]. cbn.
  split; [reflexivity|]. split; [reflexivity|]. split; [constructor|].
  intros k e ->. revert E. unfold preflight.
  repeat match goal with |- context [if ?b then _ else _] => destruct b end;
    try (unfold throw; intros E; inversion E; subst;
         split; [reflexivity|unfold err_ok; discriminate]).
  destruct (read_file env (chain_genesis_path opts));
    [destruct (resolve_vm_id env opts)|]; cbn; intros E; inversion E; subst;
    split; (reflexivity || (unfold err_ok; discriminate)).
Qed.

Lemma preflight_returns :
  returns (fun gv => read_file env (chain_genesis_path opts) = Some (fst gv) /\
                     resolve_vm_id env opts = Some (snd gv)) (preflight env opts).
Proof.
  intros s w s' gv. unfold preflight.
  repeat match goal with |- context [if ?b then _ else _] => destruct b end;
    try (unfold throw; intros E; inversion E; fail).
  destruct (read_file env (chain_genesis_path opts)) eqn:E1;
    [destruct (resolve_vm_id env opts) eqn:E2|]; cbn; intros E; inversion E; subst; auto.
Qed.

Lemma lookups_sat : sat env (stage_ok env opts Lookups) (err_ok opts) (lookups env opts).
Proof.
  unfold lookups. repeat sat_step; unfold stage_ok; cbn; auto.
  split; [destruct (skip_prompt opts); [discriminate|reflexivity]|exact I].
Qed.

Lemma stage_artifacts_sat (vm : string) :
  resolve_vm_id env opts = Some vm ->
  sat env (stage_ok env opts StageArtifacts) (err_ok opts) (stage_artifacts env opts vm).
Proof.
  intros Hvm. unfold stage_artifacts, put_object.
  repeat sat_step; unfold stage_ok, event_ok, artifact_key; cbn;
    repeat match goal with H : negb _ = true |- _ => apply negb_true_iff in H end;
    split; eauto 8.
Qed.

Lemma stage_artifacts_returns (vm : string) :
  returns (fun vk => vk = vm_binary_s3_key (s3_key_prefix opts) vm) (stage_artifacts env opts vm).
Proof.
  unfold stage_artifacts. apply returns_bind'; intros _.
  apply returns_bind'; intros _. apply returns_bind'; intros _. apply returns_ret; reflexivity.
Qed.

Lemma stake_amount_sat (P : event -> Prop) (a : N) :
  sat env P (err_ok opts) (stake_amount_in_navax a).
Proof. unfold stake_amount_in_navax. repeat sat_step. Qed.

Lemma stake_amount_returns (a : N) :
  returns (fun x => x = a * 1000000000) (stake_amount_in_navax a).
Proof.
  unfold stake_amount_in_navax. destruct (_ <? _);
    [apply returns_ret; reflexivity|apply returns_throw].
Qed.

Lemma register_primary_validators_sat :
  sat env (stage_ok env opts RegisterPrimaryValidators) (err_ok opts)
      (register_primary_validators env opts).
Proof.
  unfold register_primary_validators.
  apply sat_bind with (R := fun x => x = staking_amount_in_avax opts * 1000000000);
    [apply stake_amount_sat|apply stake_amount_returns|intros stake ->].
  apply sat_for_each. intros [n i] Hin. cbn.
  repeat sat_step. unfold stage_ok; cbn.
  split; [|exact I]. repeat split; auto.
  apply (in_map fst) in Hin; exact Hin.
Qed.

Lemma create_subnet_step_sat :
  sat env (stage_ok env opts CreateSubnet) (err_ok opts) (create_subnet_step env).
Proof. unfold create_subnet_step. repeat sat_step; unfold stage_ok; cbn; auto. Qed.

Lemma create_subnet_step_returns :
  returns (fun c => p_create_subnet env false = Some c) (create_subnet_step env).
Proof.
  unfold create_subnet_step. apply returns_bind'; intros _.
  apply returns_bind with (R1 := fun c => p_create_subnet env false = Some c);
    [apply returns_call; auto|]. intros c Hc.
  apply returns_bind'; intros _. apply returns_ret; exact Hc.
Qed.

Lemma send_command_sat (k : stage) (insts : list string) (args : string) :
  (forall d i a, belongs k (EvSendCommand d i a)) -> (forall n, belongs k (EvSleep n)) ->
  insts = map snd (node_ids_to_instance_ids opts) -> command_args env opts args ->
  sat env (stage_ok env opts k) (err_ok opts) (send_command env opts insts args).
Proof.
  intros Hk1 Hk2 Hi Ha. unfold send_command.
  repeat sat_step; unfold stage_ok; cbn; split; auto.
Qed.

Lemma send_command_returns (insts : list string) (args : string) :
  returns (fun cmd => ssm_send_command env insts args = Some cmd)
          (send_command env opts insts args).
Proof.
  unfold send_command.
  apply returns_bind with (R1 := fun c => ssm_send_command env insts args = Some c);
    [apply returns_call; auto|]. intros c Hc.
  apply returns_bind'; intros _. apply returns_ret; exact Hc.
Qed.

Lemma dispatch_install_command_sat (vm created : string) :
  resolve_vm_id env opts = Some vm -> p_create_subnet env false = Some created ->
  sat env (stage_ok env opts DispatchInstallCommand) (err_ok opts)
      (dispatch_install_command env opts (vm_binary_s3_key (s3_key_prefix opts) vm) vm created
         (map snd (node_ids_to_instance_ids opts))).
Proof.
  intros Hvm Hc. unfold dispatch_install_command.
  apply sat_bind with (R := fun a =>
    install_subnet_args opts (vm_binary_s3_key (s3_key_prefix opts) vm) vm created = Some a);
    [apply sat_unwrap; sat_side|apply returns_unwrap; auto|intros args Ha].
  apply send_command_sat; [intros; exact I|intros; exact I|reflexivity|left; eauto].
Qed.

Lemma dispatch_install_command_returns (vm created : string) :
  resolve_vm_id env opts = Some vm -> p_create_subnet env false = Some created ->
  returns (fun cmd => exists args, command_args env opts args /\
             ssm_send_command env (map snd (node_ids_to_instance_ids opts)) args = Some cmd)
    (dispatch_install_command env opts (vm_binary_s3_key (s3_key_prefix opts) vm) vm created
       (map snd (node_ids_to_instance_ids opts))).
Proof.
  intros Hvm Hc. unfold dispatch_install_command.
  apply returns_bind with (R1 := fun a =>
    install_subnet_args opts (vm_binary_s3_key (s3_key_prefix opts) vm) vm created = Some a);
    [apply returns_unwrap; auto|intros args Ha].
  intros s w s' cmd E. exists args. split; [left; eauto|].
  exact (send_command_returns _ _ _ _ _ _ E).
Qed.

Lemma poll_all_sat (k : stage) (cmd : string) :
  (forall c i t iv, belongs k (EvPollCommand c i t iv)) -> (forall n, belongs k (EvSleep n)) ->
  (exists args, command_args env opts args /\
     ssm_send_command env (map snd (node_ids_to_instance_ids opts)) args = Some cmd) ->
  sat env (stage_ok env opts k) (err_ok opts)
      (poll_all env cmd (map snd (node_ids_to_instance_ids opts))).
Proof.
  intros Hk1 Hk2 Hc. unfold poll_all. apply sat_bind'; [|intros _; repeat sat_step;
    unfold stage_ok; cbn; split; auto].
  apply sat_for_each. intros i Hi. repeat sat_step. unfold stage_ok; cbn.
  split; [|apply Hk1]. auto 6.
Qed.

Lemma u64_sub_sat (P : event -> Prop) :
  sat env P (err_ok opts) (u64_sub (staking_period_in_days opts) 1).
Proof.
  unfold u64_sub. destruct (1 <=? staking_period_in_days opts) eqn:E; [apply sat_ret|].
  apply sat_throw. intros _. apply N.leb_gt in E. lia.
Qed.

Lemma u64_sub_returns (a b : N) : returns (fun x => x + b = a) (u64_sub a b).
Proof.
  unfold u64_sub. destruct (b <=? a) eqn:E; [|apply returns_throw].
  apply returns_ret. apply N.leb_le in E. lia.
Qed.

Lemma register_subnet_validators_sat (created : string) :
  p_create_subnet env false = Some created ->
  sat env (stage_ok env opts RegisterSubnetValidators) (err_ok opts)
      (register_subnet_validators env opts created (map fst (node_ids_to_instance_ids opts))).
Proof.
  intros Hc. unfold register_subnet_validators.
  apply sat_bind'; [|intros _; repeat sat_step; unfold stage_ok; cbn; auto].
  apply sat_for_each. intros n Hn. cbv beta.
  destruct (node_id_from_str env n); [|repeat sat_step].
  apply sat_bind with (R := fun x => x + 1 = staking_period_in_days opts);
    [apply u64_sub_sat|apply u64_sub_returns|intros days Hd].
  repeat sat_step. unfold stage_ok; cbn. auto 8.
Qed.

Lemma create_chain_step_sat (created genesis vm : string) :
  p_create_subnet env false = Some created ->
  read_file env (chain_genesis_path opts) = Some genesis -> resolve_vm_id env opts = Some vm ->
  sat env (stage_ok env opts CreateChain) (err_ok opts)
      (create_chain_step env opts created genesis vm).
Proof.
  intros. unfold create_chain_step. repeat sat_step; unfold stage_ok; cbn; auto 8.
Qed.

Lemma create_chain_step_returns (created genesis vm : string) :
  returns (fun b => p_create_chain env false = Some b)
          (create_chain_step env opts created genesis vm).
Proof.
  unfold create_chain_step. apply returns_bind'; intros _. apply returns_call; auto.
Qed.

Lemma dispatch_chain_config_command_sat (bid : string) :
  p_create_chain env false = Some bid -> is_empty (chain_config_local_path opts) = false ->
  sat env (stage_ok env opts DispatchChainConfigCommand) (err_ok opts)
      (dispatch_chain_config_command env opts bid (map snd (node_ids_to_instance_ids opts))).
Proof.
  intros Hb He. unfold dispatch_chain_config_command.
  apply sat_bind with (R := fun k =>
    config_s3_key (s3_key_prefix opts) (chain_config_local_path opts) = Some k);
    [apply sat_unwrap; sat_side|apply returns_unwrap; auto|intros k Hk].
  apply send_command_sat; [intros; exact I|intros; exact I|reflexivity|right; eauto 6].
Qed.

Lemma dispatch_chain_config_command_returns (bid : string) :
  p_create_chain env false = Some bid -> is_empty (chain_config_local_path opts) = false ->
  returns (fun cmd => exists args, command_args env opts args /\
             ssm_send_command env (map snd (node_ids_to_instance_ids opts)) args = Some cmd)
    (dispatch_chain_config_command env opts bid (map snd (node_ids_to_instance_ids opts))).
Proof.
  intros Hb He. unfold dispatch_chain_config_command.
  apply returns_bind with (R1 := fun k =>
    config_s3_key (s3_key_prefix opts) (chain_config_local_path opts) = Some k);
    [apply returns_unwrap; auto|intros k Hk].
  intros s w s' cmd E. eexists. split; [right; eauto 6|].
  exact (send_command_returns _ _ _ _ _ _ E).
Qed.

End Stages.

(* ------------------------------------------------------------------ *)
(** ** Whole runs *)

Section Runs.
Variable env : Env.
Variable opts : Flags.

Ltac use_stage L :=
  eapply sat_weaken; [ | | apply L];
    [let h := fresh in intros ? h; exact (proj1 h)
    |let h := fresh in intros ? h; exact h | idtac ..].

Lemma execute_sat : sat env (event_ok env opts) (err_ok opts) (execute env opts).
Proof.
  unfold execute.
  apply sat_bind'; [apply sat_enter; exact I|intros _].
  apply sat_bind with (R := fun gv => read_file env (chain_genesis_path opts) = Some (fst gv) /\
                                     resolve_vm_id env opts = Some (snd gv));
    [apply preflight_sat|apply preflight_returns|intros [genesis vm] [Hg Hvm]; cbn in Hg, Hvm].
  apply sat_bind'; [apply sat_enter; exact I|intros _].
  apply sat_bind'; [use_stage lookups_sat|intros proceed].
  destruct proceed; [|apply sat_ret].
  apply sat_bind'; [apply sat_enter; exact I|intros _].
  apply sat_bind with (R := fun vk => vk = vm_binary_s3_key (s3_key_prefix opts) vm);
    [use_stage stage_artifacts_sat; exact Hvm|apply stage_artifacts_returns|intros vk ->].
  apply sat_bind'; [apply sat_enter; exact I|intros _].
  apply sat_bind'; [use_stage register_primary_validators_sat|intros _].
  apply sat_bind'; [apply sat_enter; exact I|intros _].
  apply sat_bind with (R := fun c => p_create_subnet env false = Some c);
    [use_stage create_subnet_step_sat|apply create_subnet_step_returns|intros created Hc].
  apply sat_bind'; [apply sat_enter; exact I|intros _].
  eapply sat_bind;
    [use_stage dispatch_install_command_sat; eauto|
     apply dispatch_install_command_returns; eauto|intros cmd Hcmd].
  apply sat_bind'; [apply sat_enter; exact I|intros _].
  apply sat_bind'; [use_stage (poll_all_sat env opts PollInstallCommand);
     [intros; exact I|intros; exact I|exact Hcmd]|intros _].
  apply sat_bind'; [apply sat_enter; exact I|intros _].
  apply sat_bind'; [use_stage register_subnet_validators_sat; exact Hc|intros _].
  apply sat_bind'; [apply sat_enter; exact I|intros _].
  apply sat_bind with (R := fun b => p_create_chain env false = Some b);
    [use_stage create_chain_step_sat; eauto|apply create_chain_step_returns|intros bid Hb].
  apply sat_bind'.
  - destruct (is_empty (chain_config_local_path opts)) eqn:He; cbn; [apply sat_ret|].
    apply sat_bind'; [apply sat_enter; exact I|intros _].
    eapply sat_bind;
      [use_stage dispatch_chain_config_command_sat; eauto|
       apply dispatch_chain_config_command_returns; eauto|intros cmd2 Hcmd2].
    apply sat_bind'; [apply sat_enter; exact I|intros _].
    use_stage (poll_all_sat env opts PollChainConfigCommand);
      [intros; exact I|intros; exact I|exact Hcmd2].
  - intros _. apply sat_bind'; [apply sat_enter; exact I|intros _].
    apply sat_emit; [reflexivity|]. cbn. auto.
Qed.

End Runs.

(* ------------------------------------------------------------------ *)
(** ** Stepping through a run *)

Section Stepping.
Variable env : Env.

Lemma bind_inv {A B} (m : M A) (f : A -> M B) (s : St) w s' r :
  bind m f s = (w, s', r) ->
  (exists w1 s1 k e, m s = (w1, s1, Err k e) /\ w = w1 /\ s' = s1 /\ r = Err k e) \/
  (exists w1 s1 a w2, m s = (w1, s1, Ok a) /\ f a s1 = (w2, s', r) /\ w = (w1 ++ w2)%list).
Proof.
  unfold bind, bind_cont. destruct (m s) as [[w1 s1] [a|k e]].
  - destruct (f a s1) as [[w2 s2] r2] eqn:E. intros H; inversion H; subst. right; eauto 8.
  - intros H; inversion H; subst. left; eauto 8.
Qed.

Lemma belongs_not_marker (k : stage) (e : event) : belongs k e -> is_marker e = false.
Proof. intros H; destruct e; cbn; try reflexivity; destruct k; contradiction. Qed.

(** The events of a stage that only performs effects of stage [k]. *)
Lemma kinds_staged {A} (k : stage) (m : M A) s w s' r :
  sat env (belongs k) (fun _ => True) m -> m s = (w, s', r) ->
  staged k (map ev w) /\ last_stage k (map ev w) = k /\ stages_of (map ev w) = [].
Proof.
  intros Hm E. destruct (Hm _ _ _ _ E) as (_ & _ & F & _).
  assert (F' : Forall (fun e => is_marker e = false /\ belongs k e) (map ev w)).
  { eapply Forall_impl; [|exact F]. intros e He. split; [eapply belongs_not_marker|]; eauto. }
  destruct (staged_of_forall k _ F') as [H1 H2]. split; [exact H1|]. split; [exact H2|].
  apply stages_of_nomarker. eapply Forall_impl; [|exact F']. intros ? [? ?]; assumption.
Qed.

Lemma kinds_forall {A} (k : stage) (m : M A) s w s' r :
  sat env (belongs k) (fun _ => True) m -> m s = (w, s', r) -> Forall (belongs k) (map ev w).
Proof. intros Hm E. apply (Hm _ _ _ _ E). Qed.

(** A projection of the events that no event of stage [k] contributes to. *)
Lemma flat_map_foreign {B} (p : event -> list B) (k : stage) (es : list event) :
  (forall e, belongs k e -> p e = []) -> Forall (belongs k) es -> flat_map p es = [].
Proof. intros Hp. induction 1 as [|e es He _ IH]; cbn; [reflexivity|]. rewrite Hp, IH; auto. Qed.

Lemma for_each_proj {A B} (p : event -> list B) (h : A -> B) (xs : list A) (f : A -> M unit)
  s w s' :
  (forall x s1 w1 s2, In x xs -> f x s1 = (w1, s2, Ok tt) -> flat_map p (map ev w1) = [h x]) ->
  for_each xs f s = (w, s', Ok tt) -> flat_map p (map ev w) = map h xs.
Proof.
  revert s w; induction xs as [|x xs IH]; intros s w Hf E; cbn in E.
  - unfold ret in E. inversion E; subst. reflexivity.
  - apply bind_inv in E as [(? & ? & ? & ? & _ & _ & _ & [=])|(w1 & s1 & [] & w2 & E1 & E2 & ->)].
    rewrite map_app, flat_map_app, (Hf x _ _ _ (or_introl eq_refl) E1). cbn. f_equal.
    eapply IH; [|exact E2]. intros; eapply Hf; eauto. right; auto.
Qed.

Variable opts : Flags.

Lemma lookups_kinds : sat env (belongs Lookups) (fun _ => True) (lookups env opts).
Proof. unfold lookups. repeat sat_step; cbn; auto. Qed.

Lemma stage_artifacts_kinds (vm : string) :
  sat env (belongs StageArtifacts) (fun _ => True) (stage_artifacts env opts vm).
Proof. unfold stage_artifacts, put_object. repeat sat_step; exact I. Qed.

Lemma register_primary_validators_kinds :
  sat env (belongs RegisterPrimaryValidators) (fun _ => True)
      (register_primary_validators env opts).
Proof.
  unfold register_primary_validators, stake_amount_in_navax.
  apply sat_bind'; [repeat sat_step|intros stake].
  apply sat_for_each. intros [n i] _. cbn. repeat sat_step. exact I.
Qed.

Lemma create_subnet_step_kinds :
  sat env (belongs CreateSubnet) (fun _ => True) (create_subnet_step env).
Proof. unfold create_subnet_step. repeat sat_step; exact I. Qed.

Lemma send_command_kinds (k : stage) (insts : list string) (args : string) :
  (forall d i a, belongs k (EvSendCommand d i a)) -> (forall n, belongs k (EvSleep n)) ->
  sat env (belongs k) (fun _ => True) (send_command env opts insts args).
Proof. intros. unfold send_command. repeat sat_step; auto. Qed.

Lemma dispatch_install_command_kinds (vk vm created : string) (insts : list string) :
  sat env (belongs DispatchInstallCommand) (fun _ => True)
      (dispatch_install_command env opts vk vm created insts).
Proof.
  unfold dispatch_install_command. apply sat_bind'; [repeat sat_step|intros args].
  apply send_command_kinds; intros; exact I.
Qed.

Lemma poll_all_kinds (k : stage) (cmd : string) (insts : list string) :
  (forall c i t iv, belongs k (EvPollCommand c i t iv)) -> (forall n, belongs k (EvSleep n)) ->
  sat env (belongs k) (fun _ => True) (poll_all env cmd insts).
Proof.
  intros. unfold poll_all. apply sat_bind'; [|intros _; repeat sat_step; auto].
  apply sat_for_each. intros i _. repeat sat_step; auto.
Qed.

Lemma register_subnet_validators_kinds (created : string) (nodes : list string) :
  sat env (belongs RegisterSubnetValidators) (fun _ => True)
      (register_subnet_validators env opts created nodes).
Proof.
  unfold register_subnet_validators, u64_sub.
  apply sat_bind'; [|intros _; repeat sat_step; exact I].
  apply sat_for_each. intros n _. cbv beta. repeat sat_step; exact I.
Qed.

Lemma create_chain_step_kinds (created genesis vm : string) :
  sat env (belongs CreateChain) (fun _ => True) (create_chain_step env opts created genesis vm).
Proof. unfold create_chain_step. repeat sat_step; exact I. Qed.

Lemma dispatch_chain_config_command_kinds (bid : string) (insts : list string) :
  sat env (belongs DispatchChainConfigCommand) (fun _ => True)
      (dispatch_chain_config_command env opts bid insts).
Proof.
  unfold dispatch_chain_config_command. apply sat_bind'; [repeat sat_step|intros k].
  apply send_command_kinds; intros; exact I.
Qed.

End Stepping.

(** Runs a hypothesis [m s = (w, s', r)] forward through its binds,
    conditionals and primitive effects, one goal per outcome. *)
Ltac step_all :=
  repeat match goal with
  | H : _ = (_, _, _) |- _ => progress (cbv beta iota zeta in H)
  | H : bind _ _ _ = (_, _, _) |- _ =>
      apply bind_inv in H;
      let E := fresh "E" in let Hr := fresh "Hr" in
      let a := fresh "a" in
      destruct H as [(?w & ?s & ?k & ?e & E & -> & -> & Hr) | (?w & ?s & a & ?w & E & H & ->)];
      [try discriminate Hr; try (injection Hr; clear Hr; intros; subst); try subst
      | lazymatch type of a with unit => destruct a | _ => idtac end]
  | H : (if ?b then _ else _) _ = (_, _, _) |- _ => destruct b eqn:?
  | H : (match ?p with pair _ _ => _ end) _ = (_, _, _) |- _ => destruct p
  | H : (match ?o with Some _ => _ | None => _ end) _ = (_, _, _) |- _ => destruct o eqn:?
  | H : unwrap _ _ _ = (_, _, _) |- _ => unfold unwrap in H
  | H : call _ _ _ _ _ = (_, _, _) |- _ => unfold call in H
  | H : check _ _ _ _ _ = (_, _, _) |- _ => unfold check in H
  | H : enter _ _ = (_, _, _) |- _ => unfold enter in H; inversion H; subst; clear H
  | H : emit _ _ _ = (_, _, _) |- _ => unfold emit in H; inversion H; subst; clear H
  | H : ret _ _ = (_, _, _) |- _ => unfold ret in H; inversion H; subst; clear H
  | H : throw _ _ = (_, _, _) |- _ => unfold throw in H; inversion H; subst; clear H
  end.

Section Pieces.
Variables (env : Env) (opts : Flags).

Lemma stake_amount_silent (a : N) s w s' r :
  stake_amount_in_navax a s = (w, s', r) -> w = [] /\ s' = s.
Proof. unfold stake_amount_in_navax. intros H. step_all; auto. Qed.

Lemma register_primary_validators_nodes s w s' :
  register_primary_validators env opts s = (w, s', Ok tt) ->
  primary_nodes (map ev w) = map fst (node_ids_to_instance_ids opts).
Proof.
  unfold register_primary_validators, primary_nodes. intros H. step_all.
  apply stake_amount_silent in E as [-> ->]. cbn.
  eapply for_each_proj; [|exact H]. intros [n i] ? ? ? _ E1. step_all. reflexivity.
Qed.

Lemma register_subnet_validators_nodes created nodes s w s' :
  register_subnet_validators env opts created nodes s = (w, s', Ok tt) ->
  subnet_nodes (map ev w) = nodes.
Proof.
  unfold register_subnet_validators, subnet_nodes. intros H. step_all.
  rewrite map_app, flat_map_app. cbn. rewrite app_nil_r.
  rewrite <- (map_id nodes). eapply for_each_proj; [|exact E].
  intros n ? ? ? _ E1. step_all. unfold u64_sub in *. step_all. reflexivity.
Qed.

Lemma poll_all_instances cmd insts s w s' :
  poll_all env cmd insts s = (w, s', Ok tt) -> polled_instances (map ev w) = insts.
Proof.
  unfold poll_all, polled_instances. intros H. step_all.
  rewrite map_app, flat_map_app. cbn. rewrite app_nil_r.
  rewrite <- (map_id insts). eapply for_each_proj; [|exact E].
  intros i ? ? ? _ E1. step_all. reflexivity.
Qed.

End Pieces.

(** Segments of a trace that belong to one stage. *)
Lemma staged_seg (k : stage) (a b : list event) :
  Forall (belongs k) a -> (staged k (a ++ b) <-> staged k b).
Proof.
  induction 1 as [|e a He _ IH]; cbn; [tauto|].
  destruct e; try (destruct k; contradiction); rewrite IH; tauto.
Qed.

Lemma stages_seg (k : stage) (a b : list event) :
  Forall (belongs k) a -> stages_of (a ++ b) = stages_of b.
Proof.
  induction 1 as [|e a He _ IH]; cbn; [reflexivity|].
  destruct e; try (destruct k; contradiction); exact IH.
Qed.

Lemma staged_forall (k : stage) (a : list event) : Forall (belongs k) a -> staged k a.
Proof. intros F. rewrite <- (app_nil_r a). apply (staged_seg k a [] F). exact I. Qed.

Lemma stages_forall (k : stage) (a : list event) : Forall (belongs k) a -> stages_of a = [].
Proof. intros F. rewrite <- (app_nil_r a). rewrite (stages_seg k a [] F). reflexivity. Qed.

Lemma stages_last (k : stage) (es : list event) :
  exists pre, stages_of (EvStage k :: es) = (pre ++ [last_stage k es])%list.
Proof.
  revert k; induction es as [|e es IH]; intros k.
  - exists []. reflexivity.
  - destruct e as [k'| | | | | | | | | | | | | | |];
      try (destruct (IH k) as [pre Hpre]; exists pre; exact Hpre).
    destruct (IH k') as [pre Hpre]. exists (k :: pre). cbn in *. rewrite Hpre. reflexivity.
Qed.

Lemma canonical_stages_nodup (opts : Flags) : NoDup (canonical_stages opts).
Proof.
  unfold canonical_stages. destruct (negb _); cbn;
    repeat constructor; cbn; intuition discriminate.
Qed.

Lemma run_starts (env : Env) (opts : Flags) (t0 : N) w s' r :
  run env opts t0 = (w, s', r) -> exists tl, map ev w = EvStage Preflight :: tl.
Proof.
  unfold run, execute. intros H. apply bind_inv in H.
  destruct H as [(? & ? & ? & ? & E & _)|(w1 & s1 & a & w2 & E & _ & ->)];
    unfold enter in E; inversion E; subst. eexists; reflexivity.
Qed.

Lemma create_subnet_step_creations (env : Env) s w s' r :
  create_subnet_step env s = (w, s', r) ->
  In (subnet_creations (map ev w)) [[]; [(true, false)]; [(true, false); (false, true)]] /\
  (forall a, r = Ok a -> subnet_creations (map ev w) = [(true, false); (false, true)]).
Proof.
  unfold create_subnet_step. intros H. step_all; cbn; split; auto 6; intros ? Ha; discriminate Ha.
Qed.

Lemma create_chain_step_creations (env : Env) (opts : Flags) created genesis vm s w s' r :
  create_chain_step env opts created genesis vm s = (w, s', r) ->
  In (chain_creations (map ev w)) [[]; [(true, false)]; [(true, false); (false, true)]] /\
  (forall a, r = Ok a -> chain_creations (map ev w) = [(true, false); (false, true)]).
Proof.
  unfold create_chain_step. intros H. step_all; cbn; split; auto 6; intros ? Ha; discriminate Ha.
Qed.

(** The settle delays of the stages between the two registrations. *)
Lemma create_subnet_step_elapsed (env : Env) s w s' a :
  create_subnet_step env s = (w, s', Ok a) -> 10 <= elapsed env w.
Proof.
  unfold create_subnet_step. intros H. step_all. rewrite !elapsed_app. cbn. lia.
Qed.

Lemma dispatch_install_command_elapsed (env : Env) (opts : Flags) vk vm created insts s w s' a :
  dispatch_install_command env opts vk vm created insts s = (w, s', Ok a) -> 30 <= elapsed env w.
Proof.
  unfold dispatch_install_command, send_command. intros H. step_all.
  rewrite !elapsed_app. cbn. lia.
Qed.

Lemma poll_all_elapsed (env : Env) cmd insts s w s' :
  poll_all env cmd insts s = (w, s', Ok tt) -> 5 <= elapsed env w.
Proof. unfold poll_all. intros H. step_all. rewrite !elapsed_app. cbn. lia. Qed.

(** An event of a segment of stage [k] belongs to [k]. *)
Lemma in_seg (k : stage) (a : list entry) (x : entry) :
  Forall (belongs k) (map ev a) -> In x a -> belongs k (ev x).
Proof.
  intros F Hx. rewrite Forall_forall in F. apply F. apply in_map. exact Hx.
Qed.

(** The facts each stage contributes to a stepped run. *)
Ltac piece_facts env opts :=
  repeat match goal with
  | E : preflight _ _ _ = _ |- _ => apply preflight_silent in E as [-> ->]
  | E : lookups _ _ _ = _ |- _ =>
      pose proof (kinds_forall _ _ _ _ _ _ _ (lookups_kinds env opts) E); clear E
  | E : stage_artifacts _ _ _ _ = _ |- _ =>
      pose proof (kinds_forall _ _ _ _ _ _ _ (stage_artifacts_kinds env opts _) E); clear E
  | E : register_primary_validators _ _ _ = (_, _, ?r) |- _ =>
      lazymatch r with
      | Ok tt => pose proof (register_primary_validators_nodes _ _ _ _ _ E)
      | _ => idtac end;
      pose proof (kinds_forall _ _ _ _ _ _ _ (register_primary_validators_kinds env opts) E);
      clear E
  | E : create_subnet_step _ _ = (_, _, ?r) |- _ =>
      lazymatch r with
      | Ok _ => pose proof (create_subnet_step_elapsed _ _ _ _ _ E)
      | _ => idtac end;
      pose proof (create_subnet_step_creations _ _ _ _ _ E);
      pose proof (kinds_forall _ _ _ _ _ _ _ (create_subnet_step_kinds env) E); clear E
  | E : dispatch_install_command _ _ _ _ _ _ _ = (_, _, ?r) |- _ =>
      lazymatch r with
      | Ok _ => pose proof (dispatch_install_command_elapsed _ _ _ _ _ _ _ _ _ _ E)
      | _ => idtac end;
      pose proof (kinds_forall _ _ _ _ _ _ _ (dispatch_install_command_kinds env opts _ _ _ _) E);
      clear E
  | E : poll_all _ _ _ _ = (_, _, ?r) |- _ =>
      lazymatch r with
      | Ok tt => pose proof (poll_all_instances _ _ _ _ _ _ E);
                 pose proof (poll_all_elapsed _ _ _ _ _ _ E)
      | _ => idtac end;
      pose proof (kinds_forall _ _ _ _ _ _ _
                    (poll_all_kinds env PollInstallCommand _ _ (fun _ _ _ _ => I) (fun _ => I)) E);
      pose proof (kinds_forall _ _ _ _ _ _ _
                    (poll_all_kinds env PollChainConfigCommand _ _ (fun _ _ _ _ => I) (fun _ => I)) E);
      clear E
  | E : register_subnet_validators _ _ _ _ _ = (_, _, ?r) |- _ =>
      lazymatch r with
      | Ok tt => pose proof (register_subnet_validators_nodes _ _ _ _ _ _ _ E)
      | _ => idtac end;
      pose proof (kinds_forall _ _ _ _ _ _ _ (register_subnet_validators_kinds env opts _ _) E);
      clear E
  | E : create_chain_step _ _ _ _ _ _ = _ |- _ =>
      pose proof (create_chain_step_creations _ _ _ _ _ _ _ _ _ E);
      pose proof (kinds_forall _ _ _ _ _ _ _ (create_chain_step_kinds env opts _ _ _) E); clear E
  | E : dispatch_chain_config_command _ _ _ _ _ = _ |- _ =>
      pose proof (kinds_forall _ _ _ _ _ _ _ (dispatch_chain_config_command_kinds env opts _ _) E);
      clear E
  end.

(** Normalises the stage structure of a stepped trace. *)
Ltac seg_norm :=
  rewrite ?map_app; repeat rewrite <- app_assoc; cbn;
  repeat match goal with
  | F : Forall (belongs ?k) ?a |- context[staged ?k (?a ++ ?b)] =>
      rewrite (staged_seg k a b F); cbn
  | F : Forall (belongs ?k) ?a |- context[stages_of (?a ++ ?b)] =>
      rewrite (stages_seg k a b F); cbn
  | F : Forall (belongs ?k) ?a |- context[stages_of ?a] => rewrite (stages_forall k a F); cbn
  | F : Forall (belongs ?k) ?a |- staged ?k ?a => exact (staged_forall k a F)
  end.

Ltac rw_cond :=
  try match goal with H : negb (is_empty (chain_config_local_path _)) = _ |- _ => rewrite H end.

(** Normalises a projection of a stepped trace, dropping the stages that
    contribute nothing to it. *)
Ltac proj_norm :=
  unfold primary_nodes, subnet_nodes, polled_instances, subnet_creations,
    chain_creations, reports in *;
  repeat (rewrite ?map_app, ?flat_map_app; cbn [flat_map app map ev]);
  repeat match goal with
  | F : Forall (belongs ?k) ?a |- context[flat_map ?f ?a] =>
      rewrite (flat_map_foreign f k a) by
        (first [exact F | let x := fresh "x" in let Hx := fresh "Hx" in
                          intros x Hx; destruct x; cbn in Hx |- *;
                          solve [reflexivity | contradiction]])
  end;
  rewrite ?app_nil_l, ?app_nil_r.

Lemma run_stage_structure (env : Env) (opts : Flags) (t0 : N) w s' r :
  run env opts t0 = (w, s', r) ->
  staged Preflight (map ev w) /\
  (exists rest, canonical_stages opts = (stages_of (map ev w) ++ rest)%list) /\
  (r = Ok tt ->
   stages_of (map ev w) = [Preflight; Lookups] \/
   (stages_of (map ev w) = canonical_stages opts /\
    primary_nodes (map ev w) = map fst (node_ids_to_instance_ids opts) /\
    subnet_nodes (map ev w) = map fst (node_ids_to_instance_ids opts) /\
    polled_instances (map ev w) =
      (map snd (node_ids_to_instance_ids opts) ++
       (if negb (is_empty (chain_config_local_path opts))
        then map snd (node_ids_to_instance_ids opts) else []))%list)).
Proof.
  intros H. unfold run, execute in H. step_all.
  all: piece_facts env opts.
  all: split; [seg_norm; auto|split; [eexists; unfold canonical_stages; rw_cond; seg_norm;
                                      reflexivity|intros Hok]].
  all: try discriminate Hok.
  all: unfold canonical_stages; rw_cond; seg_norm.
  all: try (left; reflexivity).
  all: right; split; [reflexivity|].
  all: proj_norm.
  all: repeat split; try assumption; f_equal; assumption.
Qed.

Lemma run_creations (env : Env) (opts : Flags) (t0 : N) w s' r :
  run env opts t0 = (w, s', r) ->
  (exists rest, [(true, false); (false, true)] = (subnet_creations (map ev w) ++ rest)%list) /\
  (exists rest, [(true, false); (false, true)] = (chain_creations (map ev w) ++ rest)%list) /\
  (reports (map ev w) <> [] ->
   subnet_creations (map ev w) = [(true, false); (false, true)] /\
   chain_creations (map ev w) = [(true, false); (false, true)]).
Proof.
  intros H. unfold run, execute in H. step_all.
  all: piece_facts env opts.
  all: proj_norm.
  all: repeat match goal with
    | Hc : In (flat_map _ _) _ /\ (forall _, Ok _ = Ok _ -> _) |- _ =>
        let Hx := fresh in destruct Hc as [_ Hx]; rewrite (Hx _ eq_refl) in *; clear Hx
    | Hc : In (flat_map _ _) _ /\ _ |- _ =>
        let Hx := fresh in destruct Hc as [Hx _];
        destruct Hx as [Hx|[Hx|[Hx|[]]]]; rewrite <- Hx in *; clear Hx
    end.
  all: cbn; split; [eexists; reflexivity|split; [eexists; reflexivity|]].
  all: intros Hrep; try (exfalso; apply Hrep; reflexivity); split; reflexivity.
Qed.

(** A successful run either stops after the lookups or ends with its
    report. *)
Lemma run_ok_reports (env : Env) (opts : Flags) (t0 : N) w s' :
  run env opts t0 = (w, s', Ok tt) ->
  stages_of (map ev w) = [Preflight; Lookups] \/ reports (map ev w) <> [].
Proof.
  intros H. unfold run, execute in H. step_all.
  all: piece_facts env opts.
  all: try (left; seg_norm; reflexivity).
  all: right; proj_norm; discriminate.
Qed.

(** Every primary-validator registration of a run is issued at least 45
    seconds (the settle delays 10 + 30 + 5) before every subnet-validator
    registration. *)
Lemma run_gap (env : Env) (opts : Flags) (t0 : N) w s' r xp xs n stake o1 d1 c1 n' sid o2 d2 c2 :
  run env opts t0 = (w, s', r) -> In xp w -> In xs w ->
  ev xp = EvAddValidator n stake o1 d1 c1 -> ev xs = EvAddSubnetValidator n' sid o2 d2 c2 ->
  time xp + 45 <= time xs.
Proof.
  intros H Hxp Hxs Bp Bs.
  destruct (execute_sat env opts _ _ _ _ H) as (Ht & _ & _ & _). cbn [clock] in Ht.
  unfold run, execute in H. step_all.
  all: piece_facts env opts.
  all: repeat rewrite <- app_assoc in Ht, Hxp, Hxs.
  all: repeat rewrite in_app_iff in Hxp, Hxs.
  all: repeat match goal with
    | Hx : _ \/ _ |- _ => destruct Hx as [Hx|Hx]
    | Hx : In ?x [_] |- _ => destruct Hx as [<-|[]]; cbn in *; discriminate
    | Hx : In ?x [] |- _ => destruct Hx
    | Hx : In ?x ?a, F : Forall (belongs ?k) (map ev ?a), B : ev ?x = _ |- _ =>
        let B' := fresh in pose proof (in_seg _ _ _ F Hx) as B';
        first [ exfalso; rewrite B in B'; cbn in B'; contradiction
              | clear B'; change (id (In x a)) in Hx ]
    end.
  all: unfold id in Hxp, Hxs.
  all: repeat (let T := fresh "T" in rewrite timed_app in Ht; destruct Ht as (?t & T & Ht)).
  all: match goal with T : timed _ _ _ _ |- _ => pose proof (timed_in env _ _ _ _ T Hxp) end.
  all: match goal with T : timed _ _ _ _ |- _ => pose proof (timed_in env _ _ _ _ T Hxs) end.
  all: repeat match goal with T : timed _ _ _ _ |- _ => apply timed_end in T end.
  all: cbn [elapsed ev duration] in *.
  all: lia.
Qed.

(* ------------------------------------------------------------------ *)
(** ** Where input errors come from *)

Lemma sat_err {A} (env : Env) (P : event -> Prop) (Q : error -> Prop) (m : M A) s w s' k e :
  sat env P Q m -> m s = (w, s', Err k e) -> Q e.
Proof. intros Hm E. apply (proj2 (proj2 (proj2 (Hm _ _ _ _ E))) k e eq_refl). Qed.

Section InputErrors.
Variables (env : Env) (opts : Flags).

Ltac no_input := repeat sat_step; cbn; auto.

Lemma lookups_no_input : sat env (fun _ => True) no_input_error (lookups env opts).
Proof. unfold lookups. no_input. Qed.

Lemma register_primary_validators_no_input :
  sat env (fun _ => True) no_input_error (register_primary_validators env opts).
Proof.
  unfold register_primary_validators, stake_amount_in_navax.
  apply sat_bind'; [no_input|intros stake].
  apply sat_for_each. intros [n i] _. cbn. no_input.
Qed.

Lemma create_subnet_step_no_input : sat env (fun _ => True) no_input_error (create_subnet_step env).
Proof. unfold create_subnet_step. no_input. Qed.

Lemma dispatch_install_command_no_input vk vm created insts :
  sat env (fun _ => True) no_input_error (dispatch_install_command env opts vk vm created insts).
Proof. unfold dispatch_install_command, send_command. no_input. Qed.

Lemma poll_all_no_input cmd insts : sat env (fun _ => True) no_input_error (poll_all env cmd insts).
Proof.
  unfold poll_all. apply sat_bind'; [|intros _; no_input].
  apply sat_for_each. intros i _. no_input.
Qed.

Lemma register_subnet_validators_no_input created nodes :
  sat env (fun _ => True) no_input_error (register_subnet_validators env opts created nodes).
Proof.
  unfold register_subnet_validators, u64_sub.
  apply sat_bind'; [|intros _; no_input].
  apply sat_for_each. intros n _. cbv beta. no_input.
Qed.

Lemma create_chain_step_no_input created genesis vm :
  sat env (fun _ => True) no_input_error (create_chain_step env opts created genesis vm).
Proof. unfold create_chain_step. no_input. Qed.

Lemma dispatch_chain_config_command_no_input bid insts :
  sat env (fun _ => True) no_input_error (dispatch_chain_config_command env opts bid insts).
Proof. unfold dispatch_chain_config_command, send_command. no_input. Qed.

(** The input errors of the upload stage: a missing subnet config before any
    upload, or a missing chain config after the uploads of the subnet config
    (if any) and of the VM binary. *)
Lemma stage_artifacts_input_error vm s w s' k msg :
  stage_artifacts env opts vm s = (w, s', Err k (InvalidInput msg)) ->
  (msg = subnet_config_missing_msg (subnet_config_local_path opts) /\ w = []) \/
  (msg = chain_config_missing_msg (chain_config_local_path opts) /\
   In (EvPutObject (vm_binary_local_path opts) (s3_bucket opts)
                   (vm_binary_s3_key (s3_key_prefix opts) vm)) (map ev w) /\
   (is_empty (subnet_config_local_path opts) = false ->
    exists k, config_s3_key (s3_key_prefix opts) (subnet_config_local_path opts) = Some k /\
      In (EvPutObject (subnet_config_local_path opts) (s3_bucket opts) k) (map ev w))).
Proof.
  unfold stage_artifacts, put_object. intros H. step_all.
  all: try (left; split; reflexivity).
  all: right; split; [reflexivity|].
  all: split; [rewrite ?map_app; cbn; auto 10 with datatypes|intros Hne].
  all: try (rewrite Hne in *; cbn in *; discriminate).
  all: eexists; split; [first [reflexivity|eassumption]|rewrite ?map_app; cbn; auto 10 with datatypes].
Qed.

End InputErrors.

(** An error raised inside a single-stage piece is tagged with that stage. *)
Lemma sat_err_stage {A} (env : Env) (k0 : stage) (Q : error -> Prop) (m : M A) s w s' k e :
  sat env (belongs k0) Q m -> cur s = k0 -> m s = (w, s', Err k e) -> k = k0.
Proof.
  intros Hm Hs E. pose proof (kinds_staged env k0 m s w s' (Err k e)) as (_ & Hl & _).
  - eapply sat_weaken; [| |exact Hm]; auto.
  - exact E.
  - destruct (Hm _ _ _ _ E) as (_ & Hc & _ & He). destruct (He k e eq_refl) as [-> _].
    rewrite Hc, Hs. exact Hl.
Qed.

(** The input errors a run can end in: those of the pre-flight checks, raised
    before any event, and the missing config files of the upload stage. *)
Lemma run_input_errors (env : Env) (opts : Flags) (t0 : N) w s' k msg :
  run env opts t0 = (w, s', Err k (InvalidInput msg)) ->
  (k = Preflight /\ map ev w = [EvStage Preflight] /\
   preflight env opts (mkSt t0 Preflight) =
     ([], mkSt t0 Preflight, Err Preflight (InvalidInput msg)))
  \/ (k = StageArtifacts /\ Forall (fun e => ledger_or_dispatch e = false) (map ev w) /\
      ((msg = subnet_config_missing_msg (subnet_config_local_path opts) /\
        Forall (fun e => is_upload e = false) (map ev w)) \/
       (msg = chain_config_missing_msg (chain_config_local_path opts) /\
        (exists vm, resolve_vm_id env opts = Some vm /\
          In (EvPutObject (vm_binary_local_path opts) (s3_bucket opts)
                          (vm_binary_s3_key (s3_key_prefix opts) vm)) (map ev w)) /\
        (is_empty (subnet_config_local_path opts) = false ->
    exists k, config_s3_key (s3_key_prefix opts) (subnet_config_local_path opts) = Some k /\
      In (EvPutObject (subnet_config_local_path opts) (s3_bucket opts) k) (map ev w))))).
Proof.
  intros H. unfold run, execute in H. step_all.
  all: try match goal with
    | E : ?m _ = (_, _, Err _ (InvalidInput _)) |- _ =>
        first [ exfalso; exact (sat_err _ _ _ _ _ _ _ _ _ (lookups_no_input env opts) E)
              | exfalso; exact (sat_err _ _ _ _ _ _ _ _ _ (register_primary_validators_no_input env opts) E)
              | exfalso; exact (sat_err _ _ _ _ _ _ _ _ _ (create_subnet_step_no_input env) E)
              | exfalso; exact (sat_err _ _ _ _ _ _ _ _ _ (dispatch_install_command_no_input env opts _ _ _ _) E)
              | exfalso; exact (sat_err _ _ _ _ _ _ _ _ _ (poll_all_no_input env _ _) E)
              | exfalso; exact (sat_err _ _ _ _ _ _ _ _ _ (register_subnet_validators_no_input env opts _ _) E)
              | exfalso; exact (sat_err _ _ _ _ _ _ _ _ _ (create_chain_step_no_input env opts _ _ _) E)
              | exfalso; exact (sat_err _ _ _ _ _ _ _ _ _ (dispatch_chain_config_command_no_input env opts _ _) E) ]
    end.
  - pose proof (preflight_silent _ _ _ _ _ _ E0) as [-> ->].
    destruct (preflight_sat env opts (fun _ => True) _ _ _ _ E0) as (_ & _ & _ & He).
    destruct (He _ _ eq_refl) as [-> _]. left. auto.
  - pose proof (preflight_returns env opts _ _ _ _ E0) as [_ Hvm]; cbn in Hvm.
    apply preflight_silent in E0 as [-> ->].
    match goal with
    | E : lookups _ _ _ = _ |- _ =>
        pose proof (kinds_forall _ _ _ _ _ _ _ (lookups_kinds env opts) E) as FL; clear E
    end.
    pose proof (kinds_forall _ _ _ _ _ _ _ (stage_artifacts_kinds env opts _) E4) as FS.
    pose proof (sat_err_stage _ _ _ _ _ _ _ _ _ (stage_artifacts_kinds env opts _) (eq_refl : cur {| clock := clock s4; cur := StageArtifacts |} = StageArtifacts) E4)
      as ->.
    apply stage_artifacts_input_error in E4.
    right. split; [reflexivity|]. rewrite !map_app. split.
    + repeat (apply Forall_app; split); try (repeat constructor; fail);
        (eapply Forall_impl; [|eassumption]); intros []; cbn; tauto.
    + destruct E4 as [[-> ->]|(-> & Hin & Hsub)]; [left|right].
      * split; [reflexivity|].
        repeat (apply Forall_app; split); try (repeat constructor; fail).
        eapply Forall_impl; [|eassumption]; intros []; cbn; tauto.
      * split; [reflexivity|]. split; [eexists; split; [exact Hvm|]|].
        -- rewrite !in_app_iff. right; right; right; right; right; exact Hin.
        -- intros Hne. destruct (Hsub Hne) as (sk & Hk & Hin'). exists sk. split; [exact Hk|].
           rewrite !in_app_iff. right; right; right; right; right; exact Hin'.
Qed.

(** Declining the prompt: the lookups perform only read-only calls, and once
    the prompt is shown they return [false] with the prompt as last event. *)
Lemma lookups_declined (env : Env) (opts : Flags) s w s' r :
  skip_prompt opts = false -> select_interact env = Some 0 ->
  lookups env opts s = (w, s', r) ->
  Forall (fun e => read_only e = true) (map ev w) /\ r <> Ok true /\
  (In EvPrompt (map ev w) -> r = Ok false /\ last (map ev w) EvGetBalance = EvPrompt).
Proof.
  intros Hs Hp H. unfold lookups in H. rewrite Hs, Hp in H. step_all.
  all: rewrite ?map_app; cbn.
  all: split; [repeat constructor|split; [discriminate|]].
  all: intros HP; repeat (destruct HP as [HP|HP]; [try discriminate HP|]);
    try contradiction; auto.
Qed.

Lemma poll_command_some (env : Env) (cmd i : string) (x : invocation_status) :
  poll_command env cmd i Success = Some x -> ssm_poll_command env cmd i = Some Success.
Proof.
  unfold poll_command. destruct (ssm_poll_command env cmd i) as [[]|]; cbn; congruence.
Qed.

Lemma poll_command_none (env : Env) (cmd i : string) :
  poll_command env cmd i Success = None -> ssm_poll_command env cmd i <> Some Success.
Proof.
  unfold poll_command. destruct (ssm_poll_command env cmd i) as [[]|]; cbn; congruence.
Qed.

(** The polling loop stops at the first instance whose poll fails. *)
Lemma poll_loop_outcome (env : Env) (cmd : string) (insts : list string) :
  forall s w s' r,
  for_each insts (fun instance_id =>
    _ <- call env (EvPollCommand cmd instance_id 300 5) (poll_command env cmd instance_id Success)
              "poll_command" ;;
    ret tt) s = (w, s', r) ->
  (r = Ok tt /\ polled_instances (map ev w) = insts /\
   Forall (fun i => ssm_poll_command env cmd i = Some Success) insts) \/
  (exists k pre i rest, r = Err k (Panic "poll_command") /\ insts = (pre ++ i :: rest)%list /\
   polled_instances (map ev w) = (pre ++ [i])%list /\
   Forall (fun j => ssm_poll_command env cmd j = Some Success) pre /\
   ssm_poll_command env cmd i <> Some Success).
Proof.
  induction insts as [|i insts IH]; intros s w s' r H; cbn [for_each] in H.
  - unfold ret in H. inversion H; subst. left. auto.
  - step_all.
    + right. exists (cur s), [], i, insts. repeat split; auto.
      all: match goal with Hn : poll_command _ _ _ _ = None |- _ => exact (poll_command_none _ _ _ Hn) end.
    + match goal with Hs : poll_command _ _ _ _ = Some _ |- _ => apply poll_command_some in Hs end.
      apply IH in H as E.
      unfold polled_instances in *. rewrite !map_app, !flat_map_app. cbn.
      destruct E as [(-> & -> & F)|(k & pre & j & rest & -> & -> & -> & F & Hj)].
      * left. split; [reflexivity|]. split; [reflexivity|]. constructor; [assumption|exact F].
      * right. exists k, (i :: pre), j, rest. cbn. repeat split; auto.
        all: constructor; [assumption|exact F].
Qed.

Lemma last_app_cons {A} (l l' : list A) (d : A) :
  l' <> [] -> last (l ++ l') d = last l' d.
Proof.
  intros Hn. induction l as [|x l IH]; [reflexivity|].
  cbn [app]. rewrite <- IH. destruct l; cbn; [destruct l'; [contradiction|reflexivity]|reflexivity].
Qed.

(* ------------------------------------------------------------------ *)
(** ** Facts used by the claims *)

(** String.prefix [s] is a prefix of [s ++ t]. *)
Lemma prefix_append (s t : string) : String.prefix s (s ++ t) = true.
Proof.
  induction s as [|c s IH]; cbn; [destruct t; reflexivity|].
  destruct (Ascii.ascii_dec c c) as [_|n]; [exact IH|contradiction].
Qed.

Lemma some_inj {A} (a b : A) : Some a = Some b -> a = b.
Proof. congruence. Qed.

Lemma string_app_assoc (a b c : string) : (a ++ b) ++ c = a ++ (b ++ c).
Proof. induction a as [|x a IH]; cbn; congruence. Qed.

(** Every event of a run carries what [event_ok] says. *)
Lemma run_events_ok (env : Env) (opts : Flags) (t0 : N) w s' r e :
  run env opts t0 = (w, s', r) -> In e (map ev w) -> event_ok env opts e.
Proof.
  intros H Hin. destruct (execute_sat env opts _ _ _ _ H) as (_ & _ & F & _).
  rewrite Forall_forall in F. exact (F e Hin).
Qed.

(** The input errors of the pre-flight checks. *)
Lemma preflight_input_msg (env : Env) (opts : Flags) s w s' k msg :
  preflight env opts s = (w, s', Err k (InvalidInput msg)) ->
  msg = vm_binary_missing_msg (vm_binary_local_path opts) \/ msg = subnet_flags_msg \/
  msg = chain_flags_msg \/ msg = genesis_missing_msg (chain_genesis_path opts).
Proof.
  unfold preflight.
  repeat match goal with
  | |- context [if ?b then _ else _] => destruct b
  | |- context [match ?o with Some _ => _ | None => _ end] => destruct o
  end;
    unfold throw, ret; intros E; apply (f_equal snd) in E; cbn in E;
    first [discriminate E | injection E; intros; subst; auto 6].
Qed.

(** A request failing the subnet flag check or missing its genesis file is
    refused by the pre-flight checks. *)
Lemma preflight_rejects (env : Env) (opts : Flags) s :
  (negb (is_empty (subnet_config_local_path opts)) && is_empty (subnet_config_remote_dir opts)
     = true \/ path_exists env (chain_genesis_path opts) = false) ->
  exists msg, preflight env opts s = ([], s, Err (cur s) (InvalidInput msg)).
Proof.
  intros Hc. unfold preflight.
  destruct (negb (path_exists env (vm_binary_local_path opts))); [eexists; reflexivity|].
  destruct Hc as [Hc|Hc]; [rewrite Hc; eexists; reflexivity|].
  destruct (_ && _); [eexists; reflexivity|].
  destruct (_ && _); [eexists; reflexivity|].
  rewrite Hc. eexists; reflexivity.
Qed.

Lemma map_insert_keys (k v : string) (m : list (string * string)) (x : string) :
  In x (map fst (map_insert k v m)) <-> x = k \/ In x (map fst m).
Proof.
  induction m as [|[k' v'] m IH]; cbn; [intuition congruence|].
  destruct (String.eqb k k') eqn:E; cbn.
  - apply String.eqb_eq in E. subst. intuition congruence.
  - rewrite IH. intuition congruence.
Qed.

Lemma map_insert_nodup (k v : string) (m : list (string * string)) :
  NoDup (map fst m) -> NoDup (map fst (map_insert k v m)).
Proof.
  induction m as [|[k' v'] m IH]; cbn; intros Hn.
  - constructor; [intros []|constructor].
  - inversion Hn as [|? ? Hk Hm]; subst.
    destruct (String.eqb k k') eqn:E; cbn.
    + apply String.eqb_eq in E. subst. constructor; assumption.
    + constructor; [|auto]. rewrite map_insert_keys.
      intros [->|Hin]; [rewrite String.eqb_refl in E; discriminate E|contradiction].
Qed.

(** The keys of a parsed node map are distinct. *)
Lemma parse_node_map_nodup (members : option (list (string * string))) m :
  parse_node_map members = Some m -> NoDup (map fst m).
Proof.
  unfold parse_node_map. destruct members as [ms|]; cbn; [|discriminate].
  intros Hm. injection Hm as <-.
  assert (G : forall m0, NoDup (map fst m0) ->
    NoDup (map fst (fold_left (fun m kv => map_insert (fst kv) (snd kv) m) ms m0))).
  { induction ms as [|kv ms IH]; cbn; auto using map_insert_nodup. }
  apply G. constructor.
Qed.

Lemma map_get_insert (k k' v : string) (m : list (string * string)) :
  map_get k (map_insert k' v m) = if String.eqb k k' then Some v else map_get k m.
Proof.
  induction m as [|[k1 v1] m IH]; cbn.
  - reflexivity.
  - destruct (String.eqb k' k1) eqn:E1; cbn.
    + apply String.eqb_eq in E1. subst k1. destruct (String.eqb k k'); reflexivity.
    + rewrite IH. destruct (String.eqb k k') eqn:E2; [|reflexivity].
      apply String.eqb_eq in E2. subst k. rewrite E1. reflexivity.
Qed.

(** Looking a node id up in the map built from the JSON members gives the
    value of its last member. *)
Lemma node_map_fold_lookup (ms : list (string * string)) (k : string) :
  map_get k (fold_left (fun m kv => map_insert (fst kv) (snd kv) m) ms []) =
  last_member_value k ms.
Proof.
  unfold last_member_value.
  change None with (map_get k []). generalize (@nil (string * string)) as m.
  induction ms as [|[k1 v1] ms IH]; intros m; cbn [fold_left]; [reflexivity|].
  rewrite IH. cbn [fst snd]. rewrite map_get_insert. reflexivity.
Qed.

(* ------------------------------------------------------------------ *)
(** ** The claims *)

(** C1 (counterexample): in the sample run with a 15-day period, node n1's
    primary registration is issued at second 6 and its subnet registration at
    second 58, so the subnet period ends one day minus 52 seconds before the
    primary one, not exactly one day before. *)
Lemma subnet_period_end_not_one_day_earlier :
  let w := fst (fst (run (sample_env all_exist None all_succeed)
                         (sample_opts true 15 "" two_nodes) 0)) in
  nth_error w 10 = Some (mkEntry 6 (EvAddValidator "n1" 2000000000000 60 15 true)) /\
  nth_error w 24 = Some (mkEntry 58 (EvAddSubnetValidator "n1" "real-subnet" 60 14 true)) /\
  snd (validate_period_in_days 58 60 14) + day <> snd (validate_period_in_days 6 60 15).
Proof. vm_compute. split; [reflexivity|split; [reflexivity|discriminate]]. Qed.

(** C1 (amended): in every run, a primary registration and a subnet
    registration of the same node are issued with the 60-day offset and with
    [d] and [d - 1] days, [d] the requested period; the subnet one is issued
    at least 45 seconds later, so its period ends one day minus that delay
    before the primary one. *)
Theorem validator_periods_in_run (env : Env) (opts : Flags) (t0 : N) w s' r xp xs
  n stake o1 d1 c1 sid o2 d2 c2 :
  run env opts t0 = (w, s', r) -> In xp w -> In xs w ->
  ev xp = EvAddValidator n stake o1 d1 c1 -> ev xs = EvAddSubnetValidator n sid o2 d2 c2 ->
  o1 = 60 /\ o2 = 60 /\ d1 = staking_period_in_days opts /\
  d2 + 1 = staking_period_in_days opts /\ time xp + 45 <= time xs /\
  snd (validate_period_in_days (time xs) o2 d2) + day =
    snd (validate_period_in_days (time xp) o1 d1) + (time xs - time xp).
Proof.
  intros H Hxp Hxs Ep Es.
  pose proof (run_gap env opts t0 w s' r xp xs n stake o1 d1 c1 n sid o2 d2 c2
                H Hxp Hxs Ep Es) as Hg.
  destruct (execute_sat env opts _ _ _ _ H) as (_ & _ & F & _).
  rewrite Forall_forall in F.
  pose proof (F _ (in_map ev _ _ Hxp)) as Fp. pose proof (F _ (in_map ev _ _ Hxs)) as Fs.
  rewrite Ep in Fp. rewrite Es in Fs. cbn in Fp, Fs.
  destruct Fp as (_ & _ & -> & -> & _). destruct Fs as (_ & _ & -> & Hd & _).
  repeat split; try reflexivity; try lia.
  unfold validate_period_in_days, day. cbn [snd]. lia.
Qed.

Lemma validator_periods_in_run_witness :
  snd (validate_period_in_days 58 60 14) + day =
    snd (validate_period_in_days 6 60 15) + (58 - 6).
Proof.
  destruct (run (sample_env all_exist None all_succeed) (sample_opts true 15 "" two_nodes) 0)
    as [[w s'] r] eqn:E.
  assert (Hw : w = fst (fst (run (sample_env all_exist None all_succeed)
                                 (sample_opts true 15 "" two_nodes) 0)))
    by (rewrite E; reflexivity).
  refine (proj2 (proj2 (proj2 (proj2 (proj2
    (validator_periods_in_run (sample_env all_exist None all_succeed)
       (sample_opts true 15 "" two_nodes) 0 w s' r
       (mkEntry 6 (EvAddValidator "n1" 2000000000000 60 15 true))
       (mkEntry 58 (EvAddSubnetValidator "n1" "real-subnet" 60 14 true))
       "n1" 2000000000000 60 15 true "real-subnet" 60 14 true E _ _ eq_refl eq_refl)))))).
  - apply nth_error_In with (10%nat). rewrite Hw. vm_compute. reflexivity.
  - apply nth_error_In with (24%nat). rewrite Hw. vm_compute. reflexivity.
Defined.

(** C2: a run enters the stages of [canonical_stages] in order, a prefix of
    them, none twice, every event within its stage; inside CreateSubnet and
    CreateChain the create calls are a prefix of [dry; real]; a failing run
    ends in the stage that failed, so no later stage starts; a successful run
    either stops after the lookups (the prompt declined) or enters every
    stage, with the primary and subnet registrations of every node, a poll
    of every instance, and both the dry and the real pass of create_subnet
    and of create_chain, the dry one first. *)
Theorem run_stage_order (env : Env) (opts : Flags) (t0 : N) w s' r :
  run env opts t0 = (w, s', r) ->
  staged Preflight (map ev w) /\
  (exists rest, canonical_stages opts = (stages_of (map ev w) ++ rest)%list) /\
  NoDup (stages_of (map ev w)) /\
  (exists rest, [(true, false); (false, true)] = (subnet_creations (map ev w) ++ rest)%list) /\
  (exists rest, [(true, false); (false, true)] = (chain_creations (map ev w) ++ rest)%list) /\
  (forall k e, r = Err k e -> exists pre, stages_of (map ev w) = (pre ++ [k])%list) /\
  (r = Ok tt ->
   stages_of (map ev w) = [Preflight; Lookups] \/
   (stages_of (map ev w) = canonical_stages opts /\
    primary_nodes (map ev w) = map fst (node_ids_to_instance_ids opts) /\
    subnet_nodes (map ev w) = map fst (node_ids_to_instance_ids opts) /\
    polled_instances (map ev w) =
      (map snd (node_ids_to_instance_ids opts) ++
       (if negb (is_empty (chain_config_local_path opts))
        then map snd (node_ids_to_instance_ids opts) else []))%list /\
    subnet_creations (map ev w) = [(true, false); (false, true)] /\
    chain_creations (map ev w) = [(true, false); (false, true)])).
Proof.
  intros H.
  destruct (run_stage_structure env opts t0 w s' r H) as (Hs & [rest Hp] & Hok).
  destruct (run_creations env opts t0 w s' r H) as (Hsc & Hcc & Hrep).
  split; [exact Hs|]. split; [exists rest; exact Hp|].
  split; [apply (NoDup_app_remove_r _ rest); rewrite <- Hp; apply canonical_stages_nodup|].
  split; [exact Hsc|]. split; [exact Hcc|].
  split.
  - intros k e ->.
    destruct (execute_sat env opts _ _ _ _ H) as (_ & Hc & _ & He).
    destruct (He k e eq_refl) as [Hk _]. cbn [cur] in Hc.
    destruct (run_starts env opts t0 w s' _ H) as [tl Htl].
    rewrite Htl in Hc |- *. destruct (stages_last Preflight tl) as [pre Hpre].
    exists pre. rewrite Hpre, Hk, Hc. reflexivity.
  - intros ->. destruct (Hok eq_refl) as [Hd|(Hc & Hpn & Hsn & Hpi)]; [left; exact Hd|right].
    destruct (run_ok_reports env opts t0 w s' H) as [Hd|Hr].
    + exfalso. rewrite Hd in Hc. unfold canonical_stages in Hc.
      destruct (negb (is_empty (chain_config_local_path opts))); discriminate Hc.
    + destruct (Hrep Hr) as [Hs1 Hc1]. auto 6.
Qed.

Lemma run_stage_order_witness :
  stages_of (trace_of (sample_env all_exist None all_succeed)
                      (sample_opts true 15 "" two_nodes) 0) =
    canonical_stages (sample_opts true 15 "" two_nodes) /\
  chain_creations (trace_of (sample_env all_exist None all_succeed)
                            (sample_opts true 15 "" two_nodes) 0) =
    [(true, false); (false, true)].
Proof.
  unfold trace_of.
  destruct (run (sample_env all_exist None all_succeed) (sample_opts true 15 "" two_nodes) 0)
    as [[w s'] r] eqn:E.
  destruct (run_stage_order (sample_env all_exist None all_succeed)
              (sample_opts true 15 "" two_nodes) 0 w s' r E) as (_ & _ & _ & _ & _ & _ & Hok).
  vm_compute in E. injection E as <- <- <-.
  destruct (Hok eq_refl) as [Hd|(Hc & _ & _ & _ & _ & Hcc)].
  - vm_compute in Hd. discriminate Hd.
  - split; [exact Hc|exact Hcc].
Defined.

(** C3: create_subnet and create_chain are each called at most twice, the
    dry pass (dry mode, no acceptance check) before the real one (acceptance
    checked), and both twice in a run that reaches its report; the subnet id
    of every subnet registration, chain creation and report, the blockchain
    id of the report, and every remote command line, are those of the real
    passes. *)
Theorem run_real_ids (env : Env) (opts : Flags) (t0 : N) w s' r :
  run env opts t0 = (w, s', r) ->
  (exists rest, [(true, false); (false, true)] = (subnet_creations (map ev w) ++ rest)%list) /\
  (exists rest, [(true, false); (false, true)] = (chain_creations (map ev w) ++ rest)%list) /\
  (reports (map ev w) <> [] ->
   subnet_creations (map ev w) = [(true, false); (false, true)] /\
   chain_creations (map ev w) = [(true, false); (false, true)]) /\
  (forall n sid o d c, In (EvAddSubnetValidator n sid o d c) (map ev w) ->
   p_create_subnet env false = Some sid) /\
  (forall sid g vm name dry c, In (EvCreateChain sid g vm name dry c) (map ev w) ->
   p_create_subnet env false = Some sid) /\
  (forall doc insts args, In (EvSendCommand doc insts args) (map ev w) ->
   command_args env opts args) /\
  (forall sid bid, In (EvReport sid bid) (map ev w) ->
   p_create_subnet env false = Some sid /\ p_create_chain env false = Some bid).
Proof.
  intros H. destruct (run_creations env opts t0 w s' r H) as (Hs & Hc & Hr).
  split; [exact Hs|]. split; [exact Hc|]. split; [exact Hr|].
  repeat split; intros; match goal with Hin : In _ _ |- _ =>
    pose proof (run_events_ok env opts t0 w s' r _ H Hin) as Ho; cbn in Ho; tauto end.
Qed.

Lemma run_real_ids_witness :
  reports (trace_of (sample_env all_exist None all_succeed)
                    (sample_opts true 15 "" two_nodes) 0) = [("real-subnet", "real-chain")] /\
  subnet_creations (trace_of (sample_env all_exist None all_succeed)
                             (sample_opts true 15 "" two_nodes) 0)
    = [(true, false); (false, true)].
Proof.
  unfold trace_of.
  destruct (run (sample_env all_exist None all_succeed) (sample_opts true 15 "" two_nodes) 0)
    as [[w s'] r] eqn:E.
  destruct (run_real_ids (sample_env all_exist None all_succeed)
              (sample_opts true 15 "" two_nodes) 0 w s' r E) as (_ & _ & Hr & _).
  vm_compute in E. injection E as <- <- <-. cbn [fst].
  split; [vm_compute; reflexivity|].
  apply Hr. vm_compute. discriminate.
Defined.

(** C4 (counterexample): the subnet config "cfg/subnet.json" under the
    prefix "pfx" is uploaded to "pfx/subnet": a '/' is added after the
    prefix and the extension is dropped, where prefix + basename would be
    "pfxsubnet.json". *)
Lemma config_key_is_not_prefix_plus_basename :
  nth_error (trace_of (sample_env all_exist None all_succeed)
                      (sample_subnet_opts "cfg/subnet.json") 0) 8
    = Some (EvPutObject "cfg/subnet.json" "bucket" "pfx/subnet") /\
  spec_config_s3_key "pfx" "cfg/subnet.json" = Some "pfxsubnet.json".
Proof. vm_compute. split; reflexivity. Qed.

(** C4 (amended): every upload of a run goes to the bucket of the flags,
    under [append_slash prefix ++ file_stem path] for the subnet and chain
    config files and [append_slash prefix ++ vm_id] for the VM binary, the
    VM id being the resolved one. *)
Theorem run_artifact_keys (env : Env) (opts : Flags) (t0 : N) w s' r local bucket k :
  run env opts t0 = (w, s', r) -> In (EvPutObject local bucket k) (map ev w) ->
  bucket = s3_bucket opts /\
  ((local = subnet_config_local_path opts /\ is_empty local = false /\
    exists stem, file_stem local = Some stem /\ k = append_slash (s3_key_prefix opts) ++ stem)
   \/ (local = vm_binary_local_path opts /\
       exists vm, resolve_vm_id env opts = Some vm /\ k = append_slash (s3_key_prefix opts) ++ vm)
   \/ (local = chain_config_local_path opts /\ is_empty local = false /\
       exists stem, file_stem local = Some stem /\ k = append_slash (s3_key_prefix opts) ++ stem)).
Proof.
  intros H Hin. pose proof (run_events_ok env opts t0 w s' r _ H Hin) as (Hb & Hk).
  split; [exact Hb|]. unfold artifact_key, config_s3_key, vm_binary_s3_key in Hk.
  destruct Hk as [(Hl & He & Hs)|[(Hl & vm & Hvm & ->)|(Hl & He & Hs)]].
  - left. split; [exact Hl|]. split; [exact He|].
    destruct (file_stem local) as [stem|]; [|discriminate Hs].
    injection Hs as <-. exists stem. auto.
  - right; left. split; [exact Hl|]. exists vm. auto.
  - right; right. split; [exact Hl|]. split; [exact He|].
    destruct (file_stem local) as [stem|]; [|discriminate Hs].
    injection Hs as <-. exists stem. auto.
Qed.

Lemma run_artifact_keys_witness :
  "cfg/subnet.json" = subnet_config_local_path (sample_subnet_opts "cfg/subnet.json") /\
  file_stem "cfg/subnet.json" = Some "subnet".
Proof.
  destruct (run (sample_env all_exist None all_succeed) (sample_subnet_opts "cfg/subnet.json") 0)
    as [[w s'] r] eqn:E.
  assert (Hin : In (EvPutObject "cfg/subnet.json" "bucket" "pfx/subnet") (map ev w)).
  { apply nth_error_In with (8%nat).
    change (map ev w) with (map ev (fst (fst (w, s', r)))). rewrite <- E.
    vm_compute. reflexivity. }
  destruct (run_artifact_keys _ _ _ _ _ _ _ _ _ E Hin) as (_ & Hk).
  destruct Hk as [(Hl & _ & stem & Hs & Hk)|[(Hl & _)|(Hl & _)]];
    try (vm_compute in Hl; discriminate Hl).
  split; [exact Hl|]. rewrite Hs. vm_compute in Hk. vm_compute in Hs.
  injection Hs as <-. reflexivity.
Defined.

(** C5 (counterexample): the install command of the sample run starts with
    "install-subnet", not "install-subnet-chain". *)
Lemma install_command_is_install_subnet :
  match nth_error (trace_of (sample_env all_exist None all_succeed)
                            (sample_opts true 15 "" two_nodes) 0) 17 with
  | Some (EvSendCommand _ _ args) =>
      String.prefix "install-subnet-chain" args = false /\
      String.prefix "install-subnet --log-level info --region " args = true
  | _ => False
  end.
Proof. vm_compute. split; reflexivity. Qed.

(** C5 (amended): every remote command of a run is either the install
    command, which starts with "install-subnet --log-level info --region",
    is the subcommand [install_subnet_subcmd] for the real subnet id and the
    resolved VM id, and ends with the two --subnet-config-* flags exactly
    when a subnet config local path is given; or the install-chain command,
    sent only when a chain config local path is given. *)
Theorem run_remote_command_args (env : Env) (opts : Flags) (t0 : N) w s' r doc insts args :
  run env opts t0 = (w, s', r) -> In (EvSendCommand doc insts args) (map ev w) ->
  (exists sid vm, p_create_subnet env false = Some sid /\ resolve_vm_id env opts = Some vm /\
     String.prefix "install-subnet --log-level info --region " args = true /\
     (is_empty (subnet_config_local_path opts) = true ->
        args = install_subnet_subcmd opts (vm_binary_s3_key (s3_key_prefix opts) vm) vm sid) /\
     (is_empty (subnet_config_local_path opts) = false ->
        exists k, config_s3_key (s3_key_prefix opts) (subnet_config_local_path opts) = Some k /\
          args = install_subnet_subcmd opts (vm_binary_s3_key (s3_key_prefix opts) vm) vm sid
                 ++ " --subnet-config-s3-key " ++ k ++ " --subnet-config-local-path "
                 ++ (append_slash (subnet_config_remote_dir opts) ++ sid ++ ".json")))
  \/ (String.prefix "install-chain --log-level info --region " args = true /\
      is_empty (chain_config_local_path opts) = false).
Proof.
  intros H Hin. pose proof (run_events_ok env opts t0 w s' r _ H Hin) as (_ & _ & Hc).
  destruct Hc as [(sid & vm & Hs & Hvm & Ha)|(bid & k & _ & He & _ & ->)].
  - left. exists sid, vm. split; [exact Hs|]. split; [exact Hvm|].
    unfold install_subnet_args in Ha.
    destruct (is_empty (subnet_config_local_path opts)) eqn:He; cbn [negb] in Ha.
    + apply some_inj in Ha. subst args.
      split; [unfold install_subnet_subcmd; apply prefix_append|].
      split; [reflexivity|discriminate].
    + destruct (config_s3_key _ _) as [k|] eqn:Hk; [|discriminate Ha].
      apply some_inj in Ha. subst args. split.
      * unfold install_subnet_subcmd. rewrite string_app_assoc. apply prefix_append.
      * split; [discriminate|]. intros _. exists k. auto.
  - right. split; [|exact He]. unfold install_chain_args. apply prefix_append.
Qed.

Lemma run_remote_command_args_witness :
  exists sid vm, p_create_subnet (sample_env all_exist None all_succeed) false = Some sid /\
    resolve_vm_id (sample_env all_exist None all_succeed) (sample_opts true 15 "" two_nodes)
      = Some vm.
Proof.
  destruct (run (sample_env all_exist None all_succeed) (sample_opts true 15 "" two_nodes) 0)
    as [[w s'] r] eqn:E.
  assert (Hin : exists doc insts args, In (EvSendCommand doc insts args) (map ev w)).
  { exists "doc", ["i1"; "i2"], (install_subnet_subcmd (sample_opts true 15 "" two_nodes)
      "pfx/vmid" "vmid" "real-subnet").
    apply nth_error_In with (17%nat).
    change (map ev w) with (map ev (fst (fst (w, s', r)))). rewrite <- E.
    vm_compute. reflexivity. }
  destruct Hin as (doc & insts & args & Hin).
  destruct (run_remote_command_args _ _ _ _ _ _ _ _ _ E Hin)
    as [(sid & vm & Hs & Hvm & _)|(_ & He)].
  - exists sid, vm. auto.
  - vm_compute in He. discriminate He.
Defined.

(** C6 (counterexample): when the poll of the first instance fails, the run
    stops in the polling stage with a panic and the second instance is never
    polled: no outcome is recorded for it. *)
Lemma poll_failure_stops_polling :
  let env := sample_env all_exist None
               (fun _ i => if String.eqb i "i1" then None else Some Success) in
  result_of env (sample_opts true 15 "" two_nodes) 0
    = Err PollInstallCommand (Panic "poll_command") /\
  polled_instances (trace_of env (sample_opts true 15 "" two_nodes) 0) = ["i1"].
Proof. vm_compute. split; reflexivity. Qed.

(** C6 (amended): [poll_all] polls the instances in order; it succeeds when
    the command reaches Success on every instance, having polled every
    instance, and otherwise panics at the first instance where it does not
    (an error, another final status, or the timeout), the instances after
    it never polled. *)
Theorem poll_all_outcome (env : Env) (cmd : string) (insts : list string) s w s' r :
  poll_all env cmd insts s = (w, s', r) ->
  (r = Ok tt /\ polled_instances (map ev w) = insts /\
   Forall (fun i => ssm_poll_command env cmd i = Some Success) insts) \/
  (exists k pre i rest, r = Err k (Panic "poll_command") /\ insts = (pre ++ i :: rest)%list /\
   polled_instances (map ev w) = (pre ++ [i])%list /\
   Forall (fun j => ssm_poll_command env cmd j = Some Success) pre /\
   ssm_poll_command env cmd i <> Some Success).
Proof.
  unfold poll_all. intros H. step_all.
  - apply poll_loop_outcome in E as [(? & _)|E]; [discriminate|]. right. exact E.
  - apply poll_loop_outcome in E. destruct E as [(_ & Hp & F)|(? & ? & ? & ? & ? & _)];
      [|discriminate].
    left. unfold polled_instances in *. rewrite !map_app, flat_map_app, Hp. cbn.
    rewrite app_nil_r. auto.
Qed.

Lemma poll_all_outcome_witness :
  exists w s' k, poll_all (sample_env all_exist None
                             (fun _ i => if String.eqb i "i1" then Some Failed else Some Success))
                   "cmd1" ["i1"; "i2"] (mkSt 0 PollInstallCommand) =
                 (w, s', Err k (Panic "poll_command")) /\
                 polled_instances (map ev w) = ["i1"].
Proof.
  destruct (poll_all (sample_env all_exist None
              (fun _ i => if String.eqb i "i1" then Some Failed else Some Success))
              "cmd1" ["i1"; "i2"] (mkSt 0 PollInstallCommand)) as [[w s'] r] eqn:E.
  destruct (poll_all_outcome _ _ _ _ _ _ _ E)
    as [(_ & _ & F)|(k & pre & i & rest & -> & Hi & Hp & F & Hn)].
  - exfalso. inversion F as [|? ? Hi1]. discriminate Hi1.
  - exists w, s', k. split; [reflexivity|]. rewrite Hp.
    destruct pre as [|x [|y pre]]; cbn in Hi.
    + injection Hi as <- _. reflexivity.
    + injection Hi as <- _ _. inversion F as [|? ? Hx]. discriminate Hx.
    + injection Hi as _ _ Hl. destruct pre; discriminate Hl.
Defined.

(** C7 (counterexample): with a chain config file that does not exist, the
    run fails with the input error of the upload stage after the VM binary
    has been uploaded. *)
Lemma chain_config_missing_after_upload :
  let env := sample_env (fun p => negb (String.eqb p "cfg/chain.json")) None all_succeed in
  result_of env (sample_opts true 15 "cfg/chain.json" two_nodes) 0
    = Err StageArtifacts (InvalidInput (chain_config_missing_msg "cfg/chain.json")) /\
  nth_error (trace_of env (sample_opts true 15 "cfg/chain.json" two_nodes) 0) 8
    = Some (EvPutObject "/tmp/vm" "bucket" "pfx/vmid").
Proof. vm_compute. split; reflexivity. Qed.

(** C7 (amended): a run ending in an input error has made no ledger
    transaction and no remote dispatch; the error is either one of the four
    pre-flight checks (VM binary file, subnet config flags, chain config
    flags, genesis file), raised before any effect, or a missing subnet
    config file, raised in the upload stage before any upload, or a missing
    chain config file, raised in the upload stage after the VM binary, and
    the subnet config file if one is given, were uploaded. *)
Theorem run_input_error_effects (env : Env) (opts : Flags) (t0 : N) w s' k msg :
  run env opts t0 = (w, s', Err k (InvalidInput msg)) ->
  Forall (fun e => ledger_or_dispatch e = false) (map ev w) /\
  ((k = Preflight /\ map ev w = [EvStage Preflight] /\
    (msg = vm_binary_missing_msg (vm_binary_local_path opts) \/ msg = subnet_flags_msg \/
     msg = chain_flags_msg \/ msg = genesis_missing_msg (chain_genesis_path opts)))
   \/ (k = StageArtifacts /\ msg = subnet_config_missing_msg (subnet_config_local_path opts) /\
       Forall (fun e => is_upload e = false) (map ev w))
   \/ (k = StageArtifacts /\ msg = chain_config_missing_msg (chain_config_local_path opts) /\
       (exists vm, resolve_vm_id env opts = Some vm /\
         In (EvPutObject (vm_binary_local_path opts) (s3_bucket opts)
                         (vm_binary_s3_key (s3_key_prefix opts) vm)) (map ev w)) /\
       (is_empty (subnet_config_local_path opts) = false ->
    exists k, config_s3_key (s3_key_prefix opts) (subnet_config_local_path opts) = Some k /\
      In (EvPutObject (subnet_config_local_path opts) (s3_bucket opts) k) (map ev w)))).
Proof.
  intros H. destruct (run_input_errors env opts t0 w s' k msg H)
    as [(-> & Hw & Hp)|(-> & F & [(-> & U)|(-> & Hvm)])].
  - rewrite Hw. split; [repeat constructor|]. left.
    split; [reflexivity|]. split; [reflexivity|]. exact (preflight_input_msg _ _ _ _ _ _ _ Hp).
  - split; [exact F|]. right; left. auto.
  - split; [exact F|]. right; right. auto.
Qed.

Lemma run_input_error_effects_witness :
  (exists vm, resolve_vm_id (sample_env (fun p => negb (String.eqb p "cfg/chain.json"))
                               None all_succeed)
                (sample_configs_opts "cfg/subnet.json" "cfg/chain.json") = Some vm) /\
  exists k, config_s3_key "pfx" "cfg/subnet.json" = Some k /\
    In (EvPutObject "cfg/subnet.json" "bucket" k)
       (trace_of (sample_env (fun p => negb (String.eqb p "cfg/chain.json")) None all_succeed)
                 (sample_configs_opts "cfg/subnet.json" "cfg/chain.json") 0).
Proof.
  unfold trace_of.
  destruct (run (sample_env (fun p => negb (String.eqb p "cfg/chain.json")) None all_succeed)
              (sample_configs_opts "cfg/subnet.json" "cfg/chain.json") 0) as [[w s'] r] eqn:E.
  assert (Hr : r = Err StageArtifacts (InvalidInput (chain_config_missing_msg "cfg/chain.json"))).
  { change r with (snd (w, s', r)). rewrite <- E. vm_compute. reflexivity. }
  subst r.
  destruct (run_input_error_effects _ _ _ _ _ _ _ E)
    as (_ & [(Hk & _)|[(_ & Hm & _)|(_ & _ & (vm & Hvm & _) & Hsub)]]).
  - discriminate Hk.
  - vm_compute in Hm. discriminate Hm.
  - split; [exists vm; exact Hvm|]. exact (Hsub eq_refl).
Defined.

(** C8: a request whose subnet config local path is set without a remote
    directory, or whose genesis file does not exist, fails with an input
    error of the pre-flight stage, before any call over the network (the
    trace is the stage marker alone); a request with no subnet config local
    path never fails with the subnet-flags error, whatever its remote
    directory. *)
Theorem preflight_rejects_before_network (env : Env) (opts : Flags) (t0 : N) w s' r :
  run env opts t0 = (w, s', r) ->
  ((negb (is_empty (subnet_config_local_path opts)) && is_empty (subnet_config_remote_dir opts)
      = true \/ path_exists env (chain_genesis_path opts) = false) ->
   (exists msg, r = Err Preflight (InvalidInput msg)) /\ map ev w = [EvStage Preflight] /\
   Forall (fun e => network_call e = false) (map ev w)) /\
  (is_empty (subnet_config_local_path opts) = true ->
   forall k, r <> Err k (InvalidInput subnet_flags_msg)).
Proof.
  intros H. split.
  - intros Hc. destruct (preflight_rejects env opts (mkSt t0 Preflight) Hc) as [msg Hm].
    unfold run, execute in H. step_all.
    all: match goal with
         | E : preflight _ _ _ = (?w0, _, _) |- _ => is_var w0; rewrite Hm in E
         end.
    all: try discriminate.
    match goal with E : (_, _, _) = (_, _, _) |- _ => injection E as <- <- Hk Hmsg end.
    subst. cbn. split; [eexists; reflexivity|]. split; [reflexivity|repeat constructor].
  - intros He k Hr. subst r.
    destruct (run_input_errors env opts t0 w s' k _ H)
      as [(_ & _ & Hp)|(_ & _ & [(Hm & _)|(Hm & _)])].
    + unfold preflight in Hp. rewrite He in Hp. cbn [negb andb] in Hp.
      revert Hp.
      repeat match goal with
      | |- context [if ?b then _ else _] => destruct b
      | |- context [match ?o with Some _ => _ | None => _ end] => destruct o
      end;
        unfold throw, ret; intros E; apply (f_equal snd) in E; cbn in E;
        try discriminate E; injection E; intros Hmsg;
        unfold subnet_flags_msg, vm_binary_missing_msg, chain_flags_msg,
          genesis_missing_msg in Hmsg; cbn in Hmsg; discriminate Hmsg.
    + unfold subnet_flags_msg, subnet_config_missing_msg in Hm. cbn in Hm. discriminate Hm.
    + unfold subnet_flags_msg, chain_config_missing_msg in Hm. cbn in Hm. discriminate Hm.
Qed.

Lemma preflight_rejects_before_network_witness :
  trace_of (sample_env (fun p => negb (String.eqb p "/tmp/genesis.json")) None all_succeed)
           (sample_opts true 15 "" two_nodes) 0 = [EvStage Preflight].
Proof.
  unfold trace_of.
  destruct (run (sample_env (fun p => negb (String.eqb p "/tmp/genesis.json")) None all_succeed)
              (sample_opts true 15 "" two_nodes) 0) as [[w s'] r] eqn:E.
  destruct (preflight_rejects_before_network _ _ _ _ _ _ E) as [Hc _].
  destruct Hc as (_ & Hw & _).
  - right. vm_compute. reflexivity.
  - exact Hw.
Defined.

(** C9 (counterexample): the parser accepts a map giving two node ids the
    same instance id, and staking periods of 0 and 1 day. *)
Lemma parser_accepts_shared_instance_and_short_period :
  parse_node_map (Some [("n1", "i1"); ("n2", "i1")]) = Some [("n1", "i1"); ("n2", "i1")] /\
  parse_staking_period (Some 0) = Some 0 /\ parse_staking_period (Some 1) = Some 1.
Proof. vm_compute. repeat split. Qed.

(** C9 (amended): the node ids of a parsed node map are distinct, a
    repeated key keeping the value of its last member; its instance ids
    need not be.  In a run whose staking period is at least one day,
    [staking_period_in_days - 1] never underflows: every subnet-validator
    registration is issued for exactly one day less than the requested
    period, and the run never panics on the subtraction. *)
Theorem parsed_request_invariants (members : option (list (string * string)))
  (env : Env) (opts : Flags) (t0 : N) w s' r :
  parse_node_map members = Some (node_ids_to_instance_ids opts) ->
  run env opts t0 = (w, s', r) ->
  NoDup (map fst (node_ids_to_instance_ids opts)) /\
  (forall ms k, members = Some ms ->
   map_get k (node_ids_to_instance_ids opts) = last_member_value k ms) /\
  (1 <= staking_period_in_days opts ->
   (forall n sid o d c, In (EvAddSubnetValidator n sid o d c) (map ev w) ->
    d + 1 = staking_period_in_days opts) /\
   forall k, r <> Err k (Panic underflow_msg)).
Proof.
  intros Hp H. split; [exact (parse_node_map_nodup _ _ Hp)|].
  split.
  - intros ms k ->. unfold parse_node_map in Hp. cbn [option_map] in Hp.
    injection Hp as <-. apply node_map_fold_lookup.
  - intros Hd. split.
    + intros n sid o d c Hin. exact (proj1 (proj2 (proj2 (proj2 (run_events_ok env opts t0 w s' r _ H Hin))))).
    + intros k ->. destruct (execute_sat env opts _ _ _ _ H) as (_ & _ & _ & He).
      destruct (He k _ eq_refl) as [_ Hu]. unfold err_ok in Hu.
      specialize (Hu eq_refl). lia.
Qed.

Lemma parsed_request_invariants_witness :
  NoDup (map fst two_nodes) /\
  map_get "n1" two_nodes = Some "i1" /\
  forall k, result_of (sample_env all_exist None all_succeed)
                      (sample_opts true 15 "" two_nodes) 0 <> Err k (Panic underflow_msg).
Proof.
  unfold result_of.
  destruct (run (sample_env all_exist None all_succeed) (sample_opts true 15 "" two_nodes) 0)
    as [[w s'] r] eqn:E.
  destruct (parsed_request_invariants (Some two_nodes) _ _ _ _ _ _
              (eq_refl : parse_node_map (Some two_nodes) =
                         Some (node_ids_to_instance_ids (sample_opts true 15 "" two_nodes)))
              E) as (Hn & Hl & Hu).
  split; [exact Hn|]. split; [exact (eq_trans (Hl two_nodes "n1" eq_refl) eq_refl)|].
  exact (proj2 (Hu ltac:(vm_compute; discriminate))).
Defined.

(** C10: when the prompt is not skipped and the operator picks the default
    option (0, decline), a run performs only read-only calls (the lookups
    and the prompt), and once the prompt has been shown it ends with Ok,
    the prompt being its last event. *)
Lemma run_declined (env : Env) (opts : Flags) (t0 : N) w s' r :
  skip_prompt opts = false -> select_interact env = Some 0 ->
  run env opts t0 = (w, s', r) ->
  Forall (fun e => read_only e = true) (map ev w) /\
  (In EvPrompt (map ev w) -> r = Ok tt /\ last (map ev w) EvGetBalance = EvPrompt).
Proof.
  intros Hs Hp H. unfold run, execute in H. step_all.
  all: try match goal with
    | E : preflight _ _ _ = _ |- _ => apply preflight_silent in E as [-> ->]
    end.
  all: try match goal with
    | E : lookups _ _ _ = _ |- _ => apply (lookups_declined _ _ _ _ _ _ Hs Hp) in E as (F & Hn & Hl)
    end.
  all: try (exfalso; apply Hn; reflexivity).
  all: rewrite ?app_nil_r, ?map_app; cbn [map ev app].
  all: split; [repeat constructor; try assumption|].
  all: rewrite ?in_app_iff; cbn [In]; intros HP.
  - repeat (destruct HP as [HP|HP]; [discriminate HP|]); contradiction.
  - repeat (destruct HP as [HP|HP]; [discriminate HP|]); try contradiction.
    destruct (Hl HP) as [Hr _]; discriminate Hr.
  - repeat (destruct HP as [HP|HP]; [discriminate HP|]); try contradiction.
    destruct (Hl HP) as [_ Hl']. split; [reflexivity|].
    change (EvStage Preflight :: EvStage Lookups :: map ev w2) with
      ([EvStage Preflight; EvStage Lookups] ++ map ev w2)%list.
    rewrite last_app_cons; [exact Hl'|].
    destruct w2; [contradiction|discriminate].
Qed.

Lemma run_declined_witness :
  result_of (sample_env all_exist (Some 0) all_succeed) (sample_opts false 15 "" two_nodes) 0
    = Ok tt /\
  Forall (fun e => read_only e = true)
    (trace_of (sample_env all_exist (Some 0) all_succeed) (sample_opts false 15 "" two_nodes) 0).
Proof.
  unfold result_of, trace_of.
  destruct (run (sample_env all_exist (Some 0) all_succeed) (sample_opts false 15 "" two_nodes) 0)
    as [[w s'] r] eqn:E.
  destruct (run_declined (sample_env all_exist (Some 0) all_succeed)
              (sample_opts false 15 "" two_nodes) 0 w s' r eq_refl eq_refl E) as [F Hp].
  assert (Hw : In EvPrompt (map ev w)).
  { change (map ev w) with (map ev (fst (fst (w, s', r)))). rewrite <- E.
    vm_compute. auto 10. }
  split; [exact (proj1 (Hp Hw))|exact F].
Defined.

(* ------------------------------------------------------------------ *)
(** ** Further properties of the program *)

(** X1: with --skip-prompt set, the run never shows the confirmation prompt. *)
Theorem run_skip_prompt_never_prompts (env : Env) (opts : Flags) (t0 : N) w s' r :
  skip_prompt opts = true -> run env opts t0 = (w, s', r) -> ~ In EvPrompt (map ev w).
Proof.
  intros Hs H Hin. pose proof (run_events_ok env opts t0 w s' r _ H Hin) as Ho.
  cbn in Ho. congruence.
Qed.

Lemma run_skip_prompt_never_prompts_witness :
  ~ In EvPrompt (trace_of (sample_env all_exist (Some 0) all_succeed)
                          (sample_opts true 15 "" two_nodes) 0).
Proof.
  unfold trace_of.
  destruct (run (sample_env all_exist (Some 0) all_succeed) (sample_opts true 15 "" two_nodes) 0)
    as [[w s'] r] eqn:E.
  exact (run_skip_prompt_never_prompts (sample_env all_exist (Some 0) all_succeed) (sample_opts true 15 "" two_nodes) 0 _ _ _ eq_refl E).
Defined.

(** X2: every SSM command of a run is sent with the flags' document to all the instances of the node-id/instance-id map. *)
Theorem run_commands_target_all_instances (env : Env) (opts : Flags) (t0 : N) w s' r doc insts args :
  run env opts t0 = (w, s', r) -> In (EvSendCommand doc insts args) (map ev w) ->
  doc = ssm_doc opts /\ insts = map snd (node_ids_to_instance_ids opts).
Proof.
  intros H Hin. pose proof (run_events_ok env opts t0 w s' r _ H Hin) as (Hd & Hi & _).
  auto.
Qed.

(** X3: every poll of a run targets an instance of the map, with a 300 s timeout and a 5 s interval, and polls the id returned by send_command for a rendered command. *)
Theorem run_polls_sent_commands (env : Env) (opts : Flags) (t0 : N) w s' r cmd i t iv :
  run env opts t0 = (w, s', r) -> In (EvPollCommand cmd i t iv) (map ev w) ->
  In i (map snd (node_ids_to_instance_ids opts)) /\ t = 300 /\ iv = 5 /\
  exists args, command_args env opts args /\
    ssm_send_command env (map snd (node_ids_to_instance_ids opts)) args = Some cmd.
Proof.
  intros H Hin. exact (run_events_ok env opts t0 w s' r _ H Hin).
Qed.

(** X4: every create_chain call of a run uses the id of the real create_subnet pass, the content of the genesis file, the resolved VM id and the chain name, and checks acceptance exactly on the real pass. *)
Theorem run_create_chain_args (env : Env) (opts : Flags) (t0 : N) w s' r sid g vm name dry c :
  run env opts t0 = (w, s', r) -> In (EvCreateChain sid g vm name dry c) (map ev w) ->
  p_create_subnet env false = Some sid /\ read_file env (chain_genesis_path opts) = Some g /\
  resolve_vm_id env opts = Some vm /\ name = chain_name opts /\ c = negb dry.
Proof.
  intros H Hin. exact (run_events_ok env opts t0 w s' r _ H Hin).
Qed.


Lemma run_commands_target_all_instances_witness :
  "doc" = ssm_doc (sample_opts true 15 "/cdir/c.json" two_nodes) /\
  ["i1"; "i2"] = map snd (node_ids_to_instance_ids (sample_opts true 15 "/cdir/c.json" two_nodes)).
Proof.
  destruct (run (sample_env all_exist (Some 0) all_succeed) (sample_opts true 15 "/cdir/c.json" two_nodes) 0)
    as [[w s'] r] eqn:E.
  assert (Hin : exists a, In (EvSendCommand "doc" ["i1"; "i2"] a) (map ev w)).
  { change w with (fst (fst (w, s', r))). rewrite <- E. vm_compute. eexists.
    repeat (first [left; reflexivity | right]). }
  destruct Hin as [a Hin].
  exact (run_commands_target_all_instances _ _ _ _ _ _ _ _ _ E Hin).
Defined.

Lemma run_polls_sent_commands_witness :
  In "i2" (map snd (node_ids_to_instance_ids (sample_opts true 15 "/cdir/c.json" two_nodes))) /\
  (300 : N) = 300 /\ (5 : N) = 5 /\
  exists args, command_args (sample_env all_exist (Some 0) all_succeed)
                 (sample_opts true 15 "/cdir/c.json" two_nodes) args /\
    ssm_send_command (sample_env all_exist (Some 0) all_succeed)
      (map snd (node_ids_to_instance_ids (sample_opts true 15 "/cdir/c.json" two_nodes))) args
    = Some "cmd1".
Proof.
  destruct (run (sample_env all_exist (Some 0) all_succeed) (sample_opts true 15 "/cdir/c.json" two_nodes) 0)
    as [[w s'] r] eqn:E.
  apply (run_polls_sent_commands _ _ _ _ _ _ _ _ _ _ E).
  change w with (fst (fst (w, s', r))). rewrite <- E. vm_compute.
  repeat (first [left; reflexivity | right]).
Defined.

Lemma run_create_chain_args_witness :
  p_create_subnet (sample_env all_exist (Some 0) all_succeed) false = Some "real-subnet" /\
  read_file (sample_env all_exist (Some 0) all_succeed)
    (chain_genesis_path (sample_opts true 15 "/cdir/c.json" two_nodes)) = Some "genesis" /\
  resolve_vm_id (sample_env all_exist (Some 0) all_succeed)
    (sample_opts true 15 "/cdir/c.json" two_nodes) = Some "vmid" /\
  "chain" = chain_name (sample_opts true 15 "/cdir/c.json" two_nodes) /\ true = negb false.
Proof.
  destruct (run (sample_env all_exist (Some 0) all_succeed) (sample_opts true 15 "/cdir/c.json" two_nodes) 0)
    as [[w s'] r] eqn:E.
  apply (run_create_chain_args _ _ _ _ _ _ _ _ _ _ _ _ E).
  change w with (fst (fst (w, s', r))). rewrite <- E. vm_compute.
  repeat (first [left; reflexivity | right]).
Defined.

Lemma register_primary_validators_overflow (env : Env) (opts : Flags) s w s' r :
  2 ^ 64 <= staking_amount_in_avax opts * 1000000000 ->
  register_primary_validators env opts s = (w, s', r) ->
  w = [] /\ s' = s /\ r = Err (cur s) (Panic overflow_msg).
Proof.
  intros Hb H. unfold register_primary_validators, stake_amount_in_navax in H.
  apply N.ltb_ge in Hb. rewrite Hb in H. cbv in H. inversion H; subst. auto.
Qed.

(** X5: when the stake in nAVAX does not fit in a u64, the run makes no ledger transaction and no remote dispatch, and if it reaches the primary-validator stage it panics there with the cast-overflow message. *)
Theorem run_stake_overflow (env : Env) (opts : Flags) (t0 : N) w s' r :
  2 ^ 64 <= staking_amount_in_avax opts * 1000000000 ->
  run env opts t0 = (w, s', r) ->
  Forall (fun e => ledger_or_dispatch e = false) (map ev w) /\
  (In (EvStage RegisterPrimaryValidators) (map ev w) ->
   r = Err RegisterPrimaryValidators (Panic overflow_msg)).
Proof.
  intros Hb H. unfold run, execute in H. step_all.
  all: try match goal with
       | E : register_primary_validators _ _ _ = _ |- _ =>
           apply (register_primary_validators_overflow _ _ _ _ _ _ Hb) in E as (-> & -> & HE);
           try discriminate HE
       end.
  all: piece_facts env opts.
  all: split; [rewrite !map_app; repeat (apply Forall_app; split); try (repeat constructor; fail);
               (eapply Forall_impl; [|eassumption]); intros []; cbn; tauto|intros Hin].
  all: try match goal with HE : Err _ _ = Err _ _ |- _ => rewrite HE; reflexivity end.
  all: rewrite !map_app, !in_app_iff in Hin; cbn in Hin.
  all: repeat match goal with
       | Hin : _ \/ _ |- _ => destruct Hin as [Hin|Hin]
       | Hin : EvStage _ = EvStage _ |- _ => discriminate Hin
       | Hin : False |- _ => contradiction
       | Hin : In _ (map ev ?w), F : Forall (belongs _) (map ev ?w) |- _ =>
           rewrite Forall_forall in F; apply F in Hin; contradiction
       end.
Qed.

Lemma run_stake_overflow_witness :
  Forall (fun e => ledger_or_dispatch e = false)
    (trace_of (sample_env all_exist (Some 0) all_succeed) (sample_stake_opts 18446744074) 0) /\
  result_of (sample_env all_exist (Some 0) all_succeed) (sample_stake_opts 18446744074) 0
    = Err RegisterPrimaryValidators (Panic overflow_msg).
Proof.
  unfold trace_of, result_of.
  destruct (run (sample_env all_exist (Some 0) all_succeed) (sample_stake_opts 18446744074) 0)
    as [[w s'] r] eqn:E.
  assert (Hb : 2 ^ 64 <= staking_amount_in_avax (sample_stake_opts 18446744074) * 1000000000).
  { apply N.leb_le. reflexivity. }
  destruct (run_stake_overflow _ _ _ _ _ _ Hb E) as [Hf Hr].
  split; [exact Hf|]. apply Hr.
  change w with (fst (fst (w, s', r))). rewrite <- E. vm_compute.
  repeat (first [left; reflexivity | right]).
Defined.

Lemma stage_artifacts_uploads (env : Env) (opts : Flags) vm s w s' vk :
  stage_artifacts env opts vm s = (w, s', Ok vk) ->
  In (EvPutObject (vm_binary_local_path opts) (s3_bucket opts)
                  (vm_binary_s3_key (s3_key_prefix opts) vm)) (map ev w) /\
  (is_empty (subnet_config_local_path opts) = false ->
   exists k, config_s3_key (s3_key_prefix opts) (subnet_config_local_path opts) = Some k /\
     In (EvPutObject (subnet_config_local_path opts) (s3_bucket opts) k) (map ev w)) /\
  (is_empty (chain_config_local_path opts) = false ->
   exists k, config_s3_key (s3_key_prefix opts) (chain_config_local_path opts) = Some k /\
     In (EvPutObject (chain_config_local_path opts) (s3_bucket opts) k) (map ev w)).
Proof.
  intros H. unfold stage_artifacts, put_object in H. step_all.
  all: rewrite ?map_app; cbn.
  all: split; [rewrite ?in_app_iff; cbn; tauto|].
  all: split; intros He;
       repeat match goal with X : negb (is_empty _) = false |- _ =>
                apply negb_false_iff in X; congruence end.
  all: eexists; split; [reflexivity|]; tauto.
Qed.


(** X6: every ledger transaction or remote dispatch of a run comes after the uploads of the VM binary and of the given subnet and chain config files. *)
Theorem run_uploads_before_ledger (env : Env) (opts : Flags) (t0 : N) w s' r e :
  run env opts t0 = (w, s', r) -> In e (map ev w) -> ledger_or_dispatch e = true ->
  exists pre post vm, map ev w = (pre ++ post)%list /\
    Forall (fun e => ledger_or_dispatch e = false) pre /\
    resolve_vm_id env opts = Some vm /\
    In (EvPutObject (vm_binary_local_path opts) (s3_bucket opts)
                    (vm_binary_s3_key (s3_key_prefix opts) vm)) pre /\
    (is_empty (subnet_config_local_path opts) = false ->
     exists k, config_s3_key (s3_key_prefix opts) (subnet_config_local_path opts) = Some k /\
       In (EvPutObject (subnet_config_local_path opts) (s3_bucket opts) k) pre) /\
    (is_empty (chain_config_local_path opts) = false ->
     exists k, config_s3_key (s3_key_prefix opts) (chain_config_local_path opts) = Some k /\
       In (EvPutObject (chain_config_local_path opts) (s3_bucket opts) k) pre).
Proof.
  intros H Hin Hl. unfold run, execute in H. step_all.
  all: try match goal with E : preflight _ _ _ = (_, _, Ok _) |- _ =>
         pose proof (preflight_returns env opts _ _ _ _ E) as [_ Hvm]; cbn in Hvm end.
  all: try match goal with E : stage_artifacts _ _ _ _ = (_, _, Ok _) |- _ =>
         pose proof (stage_artifacts_uploads _ _ _ _ _ _ _ E) as Hup end.
  all: try match goal with
       | E : preflight _ _ _ = _ |- _ => apply preflight_silent in E as [-> ->]
       end.
  all: try match goal with
       | EL : lookups _ _ _ = (?wl, _, _), ES : stage_artifacts _ _ _ _ = (?wa, _, Ok _) |- _ =>
           exists ([EvStage Preflight; EvStage Lookups] ++ map ev wl ++ [EvStage StageArtifacts]
                   ++ map ev wa)%list;
           pose proof (kinds_forall _ _ _ _ _ _ _ (lookups_kinds env opts) EL) as FL;
           pose proof (kinds_forall _ _ _ _ _ _ _ (stage_artifacts_kinds env opts _) ES) as FS
       end.
  all: try match goal with
       | FS : Forall (belongs StageArtifacts) _, Hvm : resolve_vm_id _ _ = Some ?vm |- _ =>
           eexists; exists vm; split;
           [rewrite !map_app; cbn [map ev app]; repeat rewrite <- app_assoc; reflexivity|]
       end.
  all: try match goal with
       | FS : Forall (belongs StageArtifacts) _ |- Forall _ _ /\ _ =>
           split;
           [repeat (apply Forall_app; split); try (repeat constructor; fail);
            (eapply Forall_impl; [|eassumption]); intros []; cbn; tauto|]
       end.
  all: try match goal with
       | Hup : In _ _ /\ _, Hvm : resolve_vm_id _ _ = Some _ |- resolve_vm_id _ _ = _ /\ _ =>
           split; [exact Hvm|];
           let U1 := fresh "U" in let U2 := fresh "U" in let U3 := fresh "U" in
           let X := fresh "X" in let kk := fresh "kk" in
           let K1 := fresh "K" in let K2 := fresh "K" in
           destruct Hup as (U1 & U2 & U3);
           split; [rewrite !in_app_iff; tauto|];
           split; intros X; [destruct (U2 X) as (kk & K1 & K2)|destruct (U3 X) as (kk & K1 & K2)];
           exists kk; (split; [exact K1|]); rewrite !in_app_iff; tauto
       end.
  all: exfalso; piece_facts env opts.
  all: rewrite !map_app, !in_app_iff in Hin; cbn in Hin.
  all: repeat match goal with
       | Hin : _ \/ _ |- _ => destruct Hin as [Hin|Hin]
       | Hin : EvStage _ = ?x |- _ => subst x; discriminate Hl
       | Hin : False |- _ => contradiction
       | Hin : In ?x (map ev ?w), F : Forall (belongs _) (map ev ?w) |- _ =>
           rewrite Forall_forall in F; apply F in Hin; destruct x; cbn in Hin, Hl;
           solve [contradiction | discriminate]
       end.
Qed.

Lemma run_uploads_before_ledger_witness :
  exists pre post vm, trace_of (sample_env all_exist (Some 0) all_succeed)
                         (sample_opts true 15 "/cdir/c.json" two_nodes) 0 = (pre ++ post)%list /\
    Forall (fun e => ledger_or_dispatch e = false) pre /\
    resolve_vm_id (sample_env all_exist (Some 0) all_succeed)
      (sample_opts true 15 "/cdir/c.json" two_nodes) = Some vm /\
    In (EvPutObject "/tmp/vm" "bucket" (vm_binary_s3_key "pfx" vm)) pre.
Proof.
  unfold trace_of.
  destruct (run (sample_env all_exist (Some 0) all_succeed)
                (sample_opts true 15 "/cdir/c.json" two_nodes) 0) as [[w s'] r] eqn:E.
  assert (Hin : In (EvCreateSubnet false true) (map ev w)).
  { change w with (fst (fst (w, s', r))). rewrite <- E. vm_compute. tauto. }
  destruct (run_uploads_before_ledger _ _ _ _ _ _ _ E Hin eq_refl)
    as (pre & post & vm & H1 & H2 & H3 & H4 & _).
  exists pre, post, vm. cbn [fst]. auto.
Defined.

Lemma same_run_bind {A B} (m1 m2 : M A) (f1 f2 : A -> M B) :
  same_run m1 m2 -> (forall a, same_run (f1 a) (f2 a)) -> same_run (bind m1 f1) (bind m2 f2).
Proof.
  intros Hm Hf s. unfold bind, bind_cont. rewrite Hm.
  destruct (m2 s) as [[w1 s1] [a|k e]]; [rewrite Hf|]; reflexivity.
Qed.

Lemma create_subnet_step_dry (env : Env) (ds dc : string) :
  p_create_subnet env true <> None ->
  same_run (create_subnet_step (with_dry_ids env ds dc)) (create_subnet_step env).
Proof.
  intros Hs s. unfold create_subnet_step, call, unwrap. cbn [p_create_subnet with_dry_ids].
  destruct (p_create_subnet env true); [|contradiction]. reflexivity.
Qed.

Lemma create_chain_step_dry (env : Env) (opts : Flags) (ds dc : string) created genesis vm :
  p_create_chain env true <> None ->
  same_run (create_chain_step (with_dry_ids env ds dc) opts created genesis vm)
           (create_chain_step env opts created genesis vm).
Proof.
  intros Hc s. unfold create_chain_step, call, unwrap. cbn [p_create_chain with_dry_ids].
  destruct (p_create_chain env true); [|contradiction]. reflexivity.
Qed.

(** X7: the ids returned by the dry passes of create_subnet and create_chain have no effect on the run, as long as the dry passes succeed. *)
Theorem run_ignores_dry_ids (env : Env) (opts : Flags) (t0 : N) (ds dc : string) :
  p_create_subnet env true <> None -> p_create_chain env true <> None ->
  run (with_dry_ids env ds dc) opts t0 = run env opts t0.
Proof.
  intros Hs Hc. unfold run. revert t0. cut (same_run (execute (with_dry_ids env ds dc) opts)
                                               (execute env opts)).
  { intros H t0. apply H. }
  unfold execute.
  repeat first
    [ intros ?; reflexivity
    | apply create_subnet_step_dry; exact Hs
    | apply create_chain_step_dry; exact Hc
    | apply same_run_bind; [|intros []]
    | apply same_run_bind; [|intros ?]
    | match goal with |- same_run (if ?b then _ else _) (if ?b then _ else _) => destruct b end ].
Qed.

Lemma run_ignores_dry_ids_witness :
  run (with_dry_ids (sample_env all_exist (Some 0) all_succeed) "other-subnet" "other-chain")
      (sample_opts true 15 "" two_nodes) 0
  = run (sample_env all_exist (Some 0) all_succeed) (sample_opts true 15 "" two_nodes) 0.
Proof. apply run_ignores_dry_ids; discriminate. Defined.

(** HashMap::get on the entries of the map. *)

(** X8: the parsed node-id/instance-id map maps a node id to the value of its last member in the JSON object. *)
Theorem parse_node_map_last_value (ms : list (string * string)) (k : string) :
  option_map (map_get k) (parse_node_map (Some ms)) = Some (last_member_value k ms).
Proof.
  unfold parse_node_map. cbn [option_map]. f_equal. apply node_map_fold_lookup.
Qed.

Import Kms.


(** 10^18 fits in a U256. *)
Lemma ether_pow : u256_checked_pow 10 ether_decimals = Some (10 ^ 18).
Proof. reflexivity. Qed.

Lemma ether_div (b : N) : u256_checked_div b (10 ^ 18) = Some (b / 10 ^ 18).
Proof. reflexivity. Qed.

(** Cases on every service answer a command depends on. *)
Ltac kcases :=
  unfold info_execute, balance_execute, network_id_of in *; rewrite ?ether_pow;
  unfold kcall, ktry, kunwrap, kemit, kret, kfail, is_empty in *;
  repeat (cbn [kbind app fst snd String.eqb negb] in *; match goal with
  | |- context [u256_checked_div ?b (10 ^ 18)] => rewrite (ether_div b)
  | |- context [if ?b then _ else _] => destruct b eqn:?
  | |- context [match ?o with Some _ => _ | None => _ end] => destruct o eqn:?
  | |- context [match ?o with pair _ _ => _ end] => is_var o; destruct o
  end).

(** X9: avalanche-kms info without a chain RPC URL makes no RPC call and shows the CMK info for network id 1. *)
Theorem info_without_rpc_url (env : KEnv) (region key_arn : string) w r :
  info_execute env region key_arn "" = (w, r) ->
  Forall (fun e => is_rpc_call e = false) w /\
  (forall i n, In (KShowInfo i n) w ->
     n = 1 /\ exists cmk, cmk_from_arn env key_arn = Some cmk /\ cmk_to_info env cmk 1 = Some i).
Proof.
  revert w r. kcases; intros w r H; inversion H; subst; clear H.
  all: split; [repeat constructor|].
  all: intros ? ? Hin; cbn in Hin; repeat destruct Hin as [Hin|Hin]; try discriminate;
       try contradiction.
  all: injection Hin as <- <-; split; [reflexivity|]; eauto.
Qed.




Lemma info_without_rpc_url_witness :
  Forall (fun e => is_rpc_call e = false) (fst (info_execute sample_kenv "us-west-2" "arn:key" "")) /\
  (1 : N) = 1 /\ exists cmk, cmk_from_arn sample_kenv "arn:key" = Some cmk /\
    cmk_to_info sample_kenv cmk 1 = Some (mkCmkInfo "0xh160" "0xeth").
Proof.
  destruct (info_execute sample_kenv "us-west-2" "arn:key" "") as [w r] eqn:E.
  destruct (info_without_rpc_url _ _ _ _ _ E) as [Hf Hi].
  split; [exact Hf|]. apply Hi.
  change w with (fst (w, r)). rewrite <- E. vm_compute.
  repeat (first [left; reflexivity | right]).
Defined.

